(** * Chemical Equipment Parameter Visualizer: the desktop client

    A shallow embedding of [main.py] (the PyQt5 client) and the properties
    of its upload-and-render pipeline.

    What is embedded, and where it lives in the source:
    - [Py]      the Python values the client handles (decoded JSON), with the
                builtins the code applies to them: truthiness, [dict.get],
                [str], f-string formatting and the [.2f] format;
    - [Effects] the exception, response and signal types, and the trace
                monad in which the code that talks to the outside world is
                written;
    - [Auth]    [AuthDialog.authenticate];
    - [Upload]  [UploadWorker.run];
    - [Canvas]  [MatplotlibCanvas.plot_type_distribution] and [clear_plot];
    - [Gui]     the state of [MainWindow] that its handlers read and write;
    - [Window]  [MainWindow.show_auth_dialog], [upload_file],
                [on_upload_success], [on_upload_error] and the event loop
                that drives them;
    - [Spec]    two notions of the specification the statements use;
    - [Samples] the data of the examples.

    The properties follow, grouped by the class they are about. *)

From Stdlib Require Import ZArith NArith Bool List String Ascii Lia.
From Stdlib Require Import DecimalString.
Import ListNotations.

Set Warnings "-register-all".
#[local] Open Scope string_scope.
#[local] Open Scope Z_scope.

(* ================================================================= *)
(** * Python values *)

Module Py.

(** A Python [float] is an IEEE double: a finite dyadic number
    [(-1)^neg * m * 2^e], an infinity, or a NaN.  The model keeps the exact
    value and does not bound [m] and [e]: every double is one of these. *)
Inductive pyfloat : Type :=
| FFinite (neg : bool) (m : N) (e : Z)
| FInf (neg : bool)
| FNan.

(** The values [response.json()] produces. A [dict] is kept as the ordered
    list of its items (Python dicts keep insertion order, and [str] shows
    them in that order); [dict_get] reads the first item with the key. *)
Inductive pyval : Type :=
| PNone
| PBool (b : bool)
| PInt (z : Z)
| PFloat (f : pyfloat)
| PStr (s : string)
| PList (l : list pyval)
| PDict (d : list (string * pyval)).

Definition pydict : Type := list (string * pyval).

(** [type(v).__name__] *)
Definition type_name (v : pyval) : string :=
  match v with
  | PNone => "NoneType"
  | PBool _ => "bool"
  | PInt _ => "int"
  | PFloat _ => "float"
  | PStr _ => "str"
  | PList _ => "list"
  | PDict _ => "dict"
  end.

(** [bool(v)], the test behind [if v:] and [not v]. *)
Definition truthy (v : pyval) : bool :=
  match v with
  | PNone => false
  | PBool b => b
  | PInt z => negb (z =? 0)
  | PFloat (FFinite _ m _) => negb (m =? 0)%N
  | PFloat _ => true
  | PStr s => negb (s =? "")%string
  | PList l => match l with [] => false | _ => true end
  | PDict d => match d with [] => false | _ => true end
  end.

(** Truthiness of a Python [str]. *)
Definition str_truthy (s : string) : bool := negb (s =? "")%string.

Fixpoint lookup (k : string) (d : pydict) : option pyval :=
  match d with
  | [] => None
  | (k', v) :: d' => if (k' =? k)%string then Some v else lookup k d'
  end.

(** [d.get(k, default)] *)
Definition dict_get (d : pydict) (k : string) (default : pyval) : pyval :=
  match lookup k d with
  | Some v => v
  | None => default
  end.

Definition isinstance_dict (v : pyval) : bool :=
  match v with PDict _ => true | _ => false end.

(** [str(z)] for an [int]. *)
Definition str_int (z : Z) : string := NilZero.string_of_int (Z.to_int z).

(** Python's [repr] of floats (shortest round-trip digits), of lists and of
    dicts (which quotes and escapes the strings inside) is the
    interpreter's; the client only passes its result on. It is a parameter
    of the development. *)
Class Repr : Type := repr : pyval -> string.

(** [str(v)]; [f"{v}"] is [format(v, "")], which is [str(v)] for each of
    these types. *)
Definition str `{Repr} (v : pyval) : string :=
  match v with
  | PNone => "None"
  | PBool true => "True"
  | PBool false => "False"
  | PInt z => str_int z
  | PStr s => s
  | PFloat _ | PList _ | PDict _ => repr v
  end.

(** ** The format [.2f] *)

Definition digit (d : Z) : string :=
  String (ascii_of_nat (48 + Z.to_nat d)) "".

(** The nearest integer to [num / den], ties to the even one ([den > 0],
    [num >= 0]): the rounding of the interpreter's float-to-decimal
    conversion. *)
Definition round_half_even (num den : Z) : Z :=
  let q := num / den in
  let r := num mod den in
  if (den <? 2 * r) || ((2 * r =? den) && Z.odd q) then q + 1 else q.

(** [|x| * 100], rounded to an integer, for [|x| = m * 2^e]. *)
Definition hundredths (m : N) (e : Z) : Z :=
  if 0 <=? e then Z.of_N m * 2 ^ e * 100
  else round_half_even (Z.of_N m * 100) (2 ^ (- e)).

(** The digits of [n / 100] with two decimals. *)
Definition fixed2 (n : Z) : string :=
  str_int (n / 100) ++ "." ++ digit (n / 10 mod 10) ++ digit (n mod 10).

(** [format(x, ".2f")] for a float. The sign of a negative number is kept
    when it rounds to zero ([-0.00]). *)
Definition format_2f_float (x : pyfloat) : string :=
  match x with
  | FFinite neg m e => (if neg then "-" else "") ++ fixed2 (hundredths m e)
  | FInf neg => if neg then "-inf" else "inf"
  | FNan => "nan"
  end.

(** [float(z)] for an [int]: the nearest double, ties to even; too large
    an [int] raises [OverflowError] ([None] here). *)
Definition float_of_int (z : Z) : option pyfloat :=
  let a := Z.abs z in
  let bits := if a =? 0 then 0 else Z.log2 a + 1 in
  if bits <=? 53 then Some (FFinite (z <? 0) (Z.to_N a) 0)
  else
    let sh := bits - 53 in
    let q := round_half_even a (2 ^ sh) in
    if 2 ^ 1024 <=? q * 2 ^ sh then None
    else Some (FFinite (z <? 0) (Z.to_N q) sh).

End Py.

(* ================================================================= *)
(** * Exceptions, responses, signals and the trace of effects *)

Module Effects.
Import Py.

(** The exception classes the [except] clauses tell apart. In [requests],
    [ConnectTimeout] derives from both [ConnectionError] and [Timeout],
    [ReadTimeout] from [Timeout] only. Every other exception the code can
    meet ([OSError], a JSON decoding error, [TypeError], ...) derives from
    [Exception] and from neither of the two. *)
Inductive exn_class : Type :=
| ConnectionError
| ConnectTimeout
| ReadTimeout
| OtherException (name : string).

(** An exception: its class and [str(e)]. *)
Record exn : Type := mk_exn { exn_cls : exn_class; exn_str : string }.

Definition isinstance_ConnectionError (e : exn) : bool :=
  match exn_cls e with
  | ConnectionError | ConnectTimeout => true
  | _ => false
  end.

Definition isinstance_Timeout (e : exn) : bool :=
  match exn_cls e with
  | ConnectTimeout | ReadTimeout => true
  | _ => false
  end.

Inductive res (A : Type) : Type :=
| Ok (a : A)
| Raise (e : exn).
Arguments Ok {A} a.
Arguments Raise {A} e.

(** [v.get(k, default)] on a decoded JSON value: only a [dict] has the
    method. *)
Definition get (v : pyval) (k : string) (default : pyval) : res pyval :=
  match v with
  | PDict d => Ok (dict_get d k default)
  | _ => Raise (mk_exn (OtherException "AttributeError")
                  ("'" ++ type_name v ++ "' object has no attribute 'get'"))
  end.

(** [format(v, ".2f")]: floats are formatted, [int] and [bool] are
    converted to float first, anything else has no such format. *)
Definition format_2f (v : pyval) : res string :=
  match v with
  | PFloat x => Ok (format_2f_float x)
  | PInt z =>
      match float_of_int z with
      | Some x => Ok (format_2f_float x)
      | None => Raise (mk_exn (OtherException "OverflowError")
                         "int too large to convert to float")
      end
  | PBool b => Ok (if b then "1.00" else "0.00")
  | PStr _ => Raise (mk_exn (OtherException "ValueError")
                       "Unknown format code 'f' for object of type 'str'")
  | _ => Raise (mk_exn (OtherException "TypeError")
                  ("unsupported format string passed to " ++ type_name v
                   ++ ".__format__"))
  end.

(** An HTTP response as the client reads it: [status_code], [text] and the
    outcome of [json()], which raises a decoding error on a body that is
    not JSON ([inl] carries its [str]). *)
Record response : Type := mk_response {
  status_code : Z;
  text : string;
  json : string + pyval
}.

Definition response_json (r : response) : res pyval :=
  match json r with
  | inr v => Ok v
  | inl msg => Raise (mk_exn (OtherException "JSONDecodeError") msg)
  end.

(** What is posted: [json=...] or [files=...]. *)
Inductive payload : Type :=
| JsonBody (d : pydict)
| Files (field filename path content_type : string).

Record request : Type := mk_request {
  url : string;
  body : payload;
  headers : list (string * string);
  timeout : option Z
}.

(** The two signals of [UploadWorker]. *)
Inductive signal : Type :=
| finished (d : pydict)
| error (msg : string).

Inductive box_kind : Type := Warning | Critical.

(** What the code does to the outside world, in order. *)
Inductive event : Type :=
| EvOpen (path mode : string)
| EvClose (path : string)
| EvPost (rq : request)
| EvEmit (s : signal)
| EvMessageBox (k : box_kind) (title msg : string).

(** The outside world: what [open] and [requests.post] answer. *)
Record world : Type := mk_world {
  fs_open : string -> res unit;
  http_post : request -> res response
}.

(** Code with effects: the events it caused, and its result or the
    exception that left it. *)
Definition io (A : Type) : Type := list event * res A.

Definition ret {A} (a : A) : io A := ([], Ok a).
Definition raise {A} (e : exn) : io A := ([], Raise e).
Definition lift {A} (r : res A) : io A := ([], r).
Definition emit_event (ev : event) : io unit := ([ev], Ok tt).

Definition bind {A B} (m : io A) (k : A -> io B) : io B :=
  match m with
  | (t, Ok a) => let (t', r) := k a in ((t ++ t')%list, r)
  | (t, Raise e) => (t, Raise e)
  end.

(** [try: m  except Exception as e: h e] *)
Definition try_except {A} (m : io A) (h : exn -> io A) : io A :=
  match m with
  | (t, Ok a) => (t, Ok a)
  | (t, Raise e) => let (t', r) := h e in ((t ++ t')%list, r)
  end.

(** [m], then [fin] whether [m] raised or not: the exit of a [with]. *)
Definition finally {A} (m : io A) (fin : list event) : io A :=
  ((fst m ++ fin)%list, snd m).

Definition trace {A} (m : io A) : list event := fst m.

Definition BASE_URL : string := "http://127.0.0.1:8000/api".

(** [requests.post(...)] *)
Definition post (w : world) (rq : request) : io response :=
  (EvPost rq :: nil, http_post w rq).

(** [with open(path, mode) as f: body] *)
Definition with_open {A} (w : world) (path mode : string) (body : io A) : io A :=
  bind (EvOpen path mode :: nil, fs_open w path)
       (fun _ => finally body [EvClose path]).

(** [s.split(sep)] for a separator of one character. *)
Fixpoint split (sep : ascii) (s : string) : list string :=
  match s with
  | EmptyString => [EmptyString]
  | String c s' =>
      if (c =? sep)%char then EmptyString :: split sep s'
      else match split sep s' with
           | h :: t => String c h :: t
           | [] => [String c EmptyString]
           end
  end.

(** [path.split('/')[-1].split('\\')[-1]] *)
Definition basename (path : string) : string :=
  last (split "\" (last (split "/" path) "")) "".

Definition is_post (ev : event) : bool :=
  match ev with EvPost _ => true | _ => false end.

Fixpoint emitted (t : list event) : list signal :=
  match t with
  | [] => []
  | EvEmit s :: t' => s :: emitted t'
  | _ :: t' => emitted t'
  end.

(** Whether the character occurs in the string. *)
Fixpoint contains (c : ascii) (s : string) : bool :=
  match s with
  | EmptyString => false
  | String c' s' => (c' =? c)%char || contains c s'
  end.

Definition is_box (ev : event) : bool :=
  match ev with EvMessageBox _ _ _ => true | _ => false end.

End Effects.

Declare Scope io_scope.
Delimit Scope io_scope with io.
Notation "x <- m ;; k" := (Effects.bind m (fun x => k))
  (at level 61, m at next level, right associativity) : io_scope.
Notation "m ;; k" := (Effects.bind m (fun _ => k))
  (at level 61, right associativity) : io_scope.

(* ================================================================= *)
(** * [AuthDialog] *)

Module Auth.
Import Py Effects.
#[local] Open Scope io_scope.

Definition warning (title msg : string) : io unit :=
  emit_event (EvMessageBox Warning title msg).

Definition critical (title msg : string) : io unit :=
  emit_event (EvMessageBox Critical title msg).

(** The request [authenticate] sends. *)
Definition login_request (username password : string) : request :=
  {| url := BASE_URL ++ "/login/";
     body := JsonBody [("username", PStr username);
                       ("password", PStr password)];
     headers := [];
     timeout := None |}.

(** [AuthDialog.authenticate], on the texts of the two input fields. The
    result is the token, or [PNone] for the [return None] that every other
    path reaches. *)
Definition authenticate (w : world) (username password : string) : io pyval :=
  if negb (str_truthy username) || negb (str_truthy password) then
    warning "Error" "Please enter username and password" ;;
    ret PNone
  else
    try_except
      (response <- post w (login_request username password) ;;
       if status_code response =? 200 then
         data <- lift (response_json response) ;;
         lift (get data "token" PNone)
       else if status_code response =? 400 then
         warning "Login Failed" "Invalid credentials" ;;
         ret PNone
       else
         warning "Login Failed" ("Error: " ++ text response) ;;
         ret PNone)
      (fun e =>
         critical "Connection Error"
                  ("Could not connect to server: " ++ exn_str e) ;;
         ret PNone).

(** [AuthDialog.handle_login]: the dialog is accepted, with [self.token]
    set, only on a token that is true. *)
Definition handle_login (w : world) (username password : string)
  : io (option pyval) :=
  token <- authenticate w username password ;;
  if truthy token then ret (Some token) else ret None.

End Auth.

(* ================================================================= *)
(** * [UploadWorker] *)

Module Upload.
Import Py Effects.
#[local] Open Scope io_scope.

Record UploadWorker : Type := mk_worker {
  file_path : string;
  token : pyval
}.

(** [self.finished.emit(v)]: the signal is declared [pyqtSignal(dict)], and
    PyQt refuses an argument of another type with a [TypeError]. *)
Definition finished_emit (v : pyval) : io unit :=
  match v with
  | PDict d => emit_event (EvEmit (finished d))
  | _ => raise (mk_exn (OtherException "TypeError")
                  ("UploadWorker.finished[dict].emit(): argument 1 has "
                   ++ "unexpected type '" ++ type_name v ++ "'"))
  end.

Definition error_emit (msg : string) : io unit :=
  emit_event (EvEmit (error msg)).

(** The three [except] clauses of [run], tried in order. *)
Definition run_except (e : exn) : io unit :=
  if isinstance_ConnectionError e then
    error_emit "Connection failed. Is the Django server running?"
  else if isinstance_Timeout e then
    error_emit "Request timed out. Please try again."
  else
    error_emit ("Error: " ++ exn_str e).

(** The request [run] sends. *)
Definition upload_request `{Repr} (self : UploadWorker) : request :=
  {| url := BASE_URL ++ "/upload/";
     body := Files "file" (basename (file_path self)) (file_path self)
                   "text/csv";
     headers := [("Authorization", "Token " ++ str (token self))];
     timeout := Some 30 |}.

(** What [run] does with the response, once the [with] block is left. *)
Definition on_response `{Repr} (response : response) : io unit :=
  if status_code response =? 201 then
    data <- lift (response_json response) ;;
    finished_emit data
  else if status_code response =? 401 then
    error_emit "Authentication failed. Please check your credentials."
  else
    data <- lift (response_json response) ;;
    error_msg <- lift (get data "error" (PStr "Unknown error occurred")) ;;
    let error_msg :=
      if isinstance_dict error_msg then PStr (str error_msg)
      else error_msg in
    error_emit ("API Error: " ++ str error_msg).

(** [UploadWorker.run] *)
Definition run `{Repr} (w : world) (self : UploadWorker) : io unit :=
  try_except
    (response <- with_open w (file_path self) "rb"
                   (post w (upload_request self)) ;;
     on_response response)
    run_except.

End Upload.

(* ================================================================= *)
(** * [MatplotlibCanvas] *)

Module Canvas.
Import Py Effects.

(** The calls the canvas makes on its axes and figure. Keyword arguments
    are kept as written. *)
Inductive call : Type :=
| Text (x y : pyfloat) (s : string) (kw : list (string * pyval))
| Bar (x height : list pyval) (color : list string) (kw : list (string * pyval))
| SetXLabel (s : string) (kw : list (string * pyval))
| SetYLabel (s : string) (kw : list (string * pyval))
| SetTitle (s : string) (kw : list (string * pyval))
| SetXTickLabels (labels : list pyval) (kw : list (string * pyval))
| TickParams (kw : list (string * pyval))
| Annotate (s : string) (bar : nat) (kw : list (string * pyval))
| YAxisGrid (on : bool) (kw : list (string * pyval))
| SetAxisBelow (b : bool)
| TightLayout
| Draw.

(** The state of the canvas: the calls made since its axes were last
    cleared ([self.axes.clear()] removes everything drawn or set before). *)
Definition canvas : Type := list call.

Definition half : pyfloat := FFinite false 1 (-1).

(** The double nearest to [0.3]. *)
Definition three_tenths : pyfloat := FFinite false 5404319552844595 (-54).

Definition colors : list string :=
  ["#63b3ed"; "#68d391"; "#ed8936"; "#9f7aea"; "#f56565"; "#48bb78";
   "#f6ad55"].

(** [[colors[i % len(colors)] for i in range(n)]] *)
Definition bar_colors (n : nat) : list string :=
  map (fun i => nth (Nat.modulo i (List.length colors)) colors "") (seq 0 n).

(** [for item in v]: the items of a list, the keys of a dict, the
    characters of a string. Exception messages are CPython's. *)
Definition iterate (v : pyval) : res (list pyval) :=
  match v with
  | PList l => Ok l
  | PDict d => Ok (map (fun kv => PStr (fst kv)) d)
  | PStr s => Ok (map (fun c => PStr (String c "")) (list_ascii_of_string s))
  | _ => Raise (mk_exn (OtherException "TypeError")
                  ("'" ++ type_name v ++ "' object is not iterable"))
  end.

(** [item[k]] for a string key [k]. *)
Definition getitem (item : pyval) (k : string) : res pyval :=
  match item with
  | PDict d =>
      match lookup k d with
      | Some v => Ok v
      | None => Raise (mk_exn (OtherException "KeyError") ("'" ++ k ++ "'"))
      end
  | PList _ =>
      Raise (mk_exn (OtherException "TypeError")
               "list indices must be integers or slices, not str")
  | PStr _ =>
      Raise (mk_exn (OtherException "TypeError")
               "string indices must be integers, not 'str'")
  | _ =>
      Raise (mk_exn (OtherException "TypeError")
               ("'" ++ type_name item ++ "' object is not subscriptable"))
  end.

(** [[item[k] for item in items]]: stops at the first item that raises. *)
Fixpoint column (k : string) (items : list pyval) : res (list pyval) :=
  match items with
  | [] => Ok []
  | item :: rest =>
      match getitem item k with
      | Raise e => Raise e
      | Ok v =>
          match column k rest with
          | Raise e => Raise e
          | Ok vs => Ok (v :: vs)
          end
      end
  end.

(** The value labels: [for bar, count in zip(bars, counts)], with [bars]
    the [n] bars that [axes.bar] returned. *)
Fixpoint annotations `{Repr} (i n : nat) (counts : list pyval) : list call :=
  match n, counts with
  | S n', count :: rest =>
      Annotate (str count) i
               [("xytext", PList [PInt 0; PInt 3]);
                ("textcoords", PStr "offset points");
                ("ha", PStr "center"); ("va", PStr "bottom");
                ("fontsize", PInt 10); ("fontweight", PStr "bold");
                ("color", PStr "white")]
      :: annotations (S i) n' rest
  | _, _ => []
  end.

Definition label_kw : list (string * pyval) :=
  [("fontsize", PInt 10); ("color", PStr "#a0aec0"); ("labelpad", PInt 10)].

(** The calls of the non-empty branch, from [axes.bar] on. [axes.bar] draws
    one bar per element of [types]. *)
Definition chart `{Repr} (types counts : list pyval) : list call :=
  ([Bar types counts (bar_colors (List.length types))
       [("edgecolor", PStr "white"); ("linewidth", PFloat half)];
   SetXLabel "Equipment Type" label_kw;
   SetYLabel "Count" label_kw;
   SetTitle "Equipment Type Distribution"
            [("fontsize", PInt 12); ("color", PStr "white");
             ("fontweight", PStr "bold"); ("pad", PInt 15)];
   SetXTickLabels types
                  [("rotation", PInt 30); ("ha", PStr "right");
                   ("fontsize", PInt 9); ("color", PStr "#a0aec0")];
   TickParams [("axis", PStr "y"); ("colors", PStr "#a0aec0")]]
  ++ annotations 0 (List.length types) counts
  ++ [YAxisGrid true [("linestyle", PStr "--"); ("alpha", PFloat three_tenths)];
      SetAxisBelow true;
      TightLayout;
      Draw])%list.

Definition placeholder : list call :=
  [Text half half "No data to display"
        [("ha", PStr "center"); ("va", PStr "center");
         ("fontsize", PInt 14); ("color", PStr "#888888")];
   Draw].

(** [MatplotlibCanvas.plot_type_distribution]: the new state of the canvas,
    and whether the method returned or raised. The axes are cleared first,
    so an exception in one of the two comprehensions leaves them empty. *)
Definition plot_type_distribution `{Repr} (self : canvas) (distribution : pyval)
  : canvas * res unit :=
  let cleared : canvas := [] in
  if negb (truthy distribution) then ((cleared ++ placeholder)%list, Ok tt)
  else
    match iterate distribution with
    | Raise e => (cleared, Raise e)
    | Ok items =>
        match column "type" items with
        | Raise e => (cleared, Raise e)
        | Ok types =>
            match column "count" items with
            | Raise e => (cleared, Raise e)
            | Ok counts => ((cleared ++ chart types counts)%list, Ok tt)
            end
        end
    end.

(** [MatplotlibCanvas.clear_plot] *)
Definition clear_plot (self : canvas) : canvas :=
  [Text half half "Upload a CSV file to view chart"
        [("ha", PStr "center"); ("va", PStr "center");
         ("fontsize", PInt 12); ("color", PStr "#666666")];
   Draw].

(** The bars a state of the canvas shows: category, height and colour of
    each, in the order [axes.bar] was given them. *)
Fixpoint zip3 (xs hs : list pyval) (cs : list string)
  : list (pyval * pyval * string) :=
  match xs, hs, cs with
  | x :: xs', h :: hs', c :: cs' => (x, h, c) :: zip3 xs' hs' cs'
  | _, _, _ => []
  end.

Fixpoint bars (c : canvas) : list (pyval * pyval * string) :=
  match c with
  | [] => []
  | Bar x h col _ :: c' => (zip3 x h col ++ bars c')%list
  | _ :: c' => bars c'
  end.

(** The value labels it shows: text and index of the bar labelled. *)
Fixpoint value_labels (c : canvas) : list (string * nat) :=
  match c with
  | [] => []
  | Annotate s i _ :: c' => (s, i) :: value_labels c'
  | _ :: c' => value_labels c'
  end.

(** A distribution is a sequence of [{type, count}] objects: the pair an
    item stands for, if it is one; and the pairs of a whole sequence. *)
Definition entry (item : pyval) : option (pyval * pyval) :=
  match item with
  | PDict d =>
      match lookup "type" d, lookup "count" d with
      | Some t, Some c => Some (t, c)
      | _, _ => None
      end
  | _ => None
  end.

Fixpoint entries (items : list pyval) : option (list (pyval * pyval)) :=
  match items with
  | [] => Some []
  | item :: rest =>
      match entry item, entries rest with
      | Some e, Some es => Some (e :: es)
      | _, _ => None
      end
  end.

(** Calls that draw or set up axes content: bars, axis labels, title, tick
    labels, value labels, grid. *)
Definition decorates (x : call) : bool :=
  match x with
  | Text _ _ _ _ | Draw | TightLayout => false
  | _ => true
  end.

(** A list whose items are all [{type, count}] objects. *)
Definition well_formed (distribution : pyval) : bool :=
  match distribution with
  | PList items =>
      match entries items with
      | Some _ => true
      | None => false
      end
  | _ => false
  end.

End Canvas.

(* ================================================================= *)
(** * [MainWindow] *)

Module Gui.
Import Py Effects Upload.

(** The part of the window the handlers read and write. [running] is not
    a field of the source: it lists the worker threads that were started
    and whose signal has not been delivered yet. *)
Record MainWindow : Type := mk_window {
  token : pyval;
  worker : option UploadWorker;
  upload_btn_enabled : bool;
  upload_btn_text : string;
  file_label_text : string;
  file_label_style : string;
  total_label : string;
  flowrate_label : string;
  pressure_label : string;
  temperature_label : string;
  canvas : Canvas.canvas;
  status_message : string;
  message_boxes : list (box_kind * string * string);
  running : list UploadWorker
}.

Definition set_token v (s : MainWindow) : MainWindow :=
  mk_window v (worker s) (upload_btn_enabled s) (upload_btn_text s)
    (file_label_text s) (file_label_style s) (total_label s)
    (flowrate_label s) (pressure_label s) (temperature_label s) (canvas s)
    (status_message s) (message_boxes s) (running s).

Definition set_worker v (s : MainWindow) : MainWindow :=
  mk_window (token s) v (upload_btn_enabled s) (upload_btn_text s)
    (file_label_text s) (file_label_style s) (total_label s)
    (flowrate_label s) (pressure_label s) (temperature_label s) (canvas s)
    (status_message s) (message_boxes s) (running s).

Definition set_upload_btn_enabled v (s : MainWindow) : MainWindow :=
  mk_window (token s) (worker s) v (upload_btn_text s)
    (file_label_text s) (file_label_style s) (total_label s)
    (flowrate_label s) (pressure_label s) (temperature_label s) (canvas s)
    (status_message s) (message_boxes s) (running s).

Definition set_upload_btn_text v (s : MainWindow) : MainWindow :=
  mk_window (token s) (worker s) (upload_btn_enabled s) v
    (file_label_text s) (file_label_style s) (total_label s)
    (flowrate_label s) (pressure_label s) (temperature_label s) (canvas s)
    (status_message s) (message_boxes s) (running s).

Definition set_file_label_text v (s : MainWindow) : MainWindow :=
  mk_window (token s) (worker s) (upload_btn_enabled s) (upload_btn_text s)
    v (file_label_style s) (total_label s)
    (flowrate_label s) (pressure_label s) (temperature_label s) (canvas s)
    (status_message s) (message_boxes s) (running s).

Definition set_file_label_style v (s : MainWindow) : MainWindow :=
  mk_window (token s) (worker s) (upload_btn_enabled s) (upload_btn_text s)
    (file_label_text s) v (total_label s)
    (flowrate_label s) (pressure_label s) (temperature_label s) (canvas s)
    (status_message s) (message_boxes s) (running s).

Definition set_total_label v (s : MainWindow) : MainWindow :=
  mk_window (token s) (worker s) (upload_btn_enabled s) (upload_btn_text s)
    (file_label_text s) (file_label_style s) v
    (flowrate_label s) (pressure_label s) (temperature_label s) (canvas s)
    (status_message s) (message_boxes s) (running s).

Definition set_flowrate_label v (s : MainWindow) : MainWindow :=
  mk_window (token s) (worker s) (upload_btn_enabled s) (upload_btn_text s)
    (file_label_text s) (file_label_style s) (total_label s)
    v (pressure_label s) (temperature_label s) (canvas s)
    (status_message s) (message_boxes s) (running s).

Definition set_pressure_label v (s : MainWindow) : MainWindow :=
  mk_window (token s) (worker s) (upload_btn_enabled s) (upload_btn_text s)
    (file_label_text s) (file_label_style s) (total_label s)
    (flowrate_label s) v (temperature_label s) (canvas s)
    (status_message s) (message_boxes s) (running s).

Definition set_temperature_label v (s : MainWindow) : MainWindow :=
  mk_window (token s) (worker s) (upload_btn_enabled s) (upload_btn_text s)
    (file_label_text s) (file_label_style s) (total_label s)
    (flowrate_label s) (pressure_label s) v (canvas s)
    (status_message s) (message_boxes s) (running s).

Definition set_canvas v (s : MainWindow) : MainWindow :=
  mk_window (token s) (worker s) (upload_btn_enabled s) (upload_btn_text s)
    (file_label_text s) (file_label_style s) (total_label s)
    (flowrate_label s) (pressure_label s) (temperature_label s) v
    (status_message s) (message_boxes s) (running s).

Definition set_status_message v (s : MainWindow) : MainWindow :=
  mk_window (token s) (worker s) (upload_btn_enabled s) (upload_btn_text s)
    (file_label_text s) (file_label_style s) (total_label s)
    (flowrate_label s) (pressure_label s) (temperature_label s) (canvas s)
    v (message_boxes s) (running s).

Definition set_message_boxes v (s : MainWindow) : MainWindow :=
  mk_window (token s) (worker s) (upload_btn_enabled s) (upload_btn_text s)
    (file_label_text s) (file_label_style s) (total_label s)
    (flowrate_label s) (pressure_label s) (temperature_label s) (canvas s)
    (status_message s) v (running s).

Definition set_running v (s : MainWindow) : MainWindow :=
  mk_window (token s) (worker s) (upload_btn_enabled s) (upload_btn_text s)
    (file_label_text s) (file_label_style s) (total_label s)
    (flowrate_label s) (pressure_label s) (temperature_label s) (canvas s)
    (status_message s) (message_boxes s) v.

(** [QMessageBox.warning] / [QMessageBox.critical] *)
Definition message_box (k : box_kind) (title msg : string) (s : MainWindow)
  : MainWindow :=
  set_message_boxes (message_boxes s ++ [(k, title, msg)])%list s.

(** Code of the window: the state it leaves, and its result or the
    exception that left it. *)
Definition gui (A : Type) : Type := MainWindow -> MainWindow * res A.

Definition gret {A} (a : A) : gui A := fun s => (s, Ok a).
Definition glift {A} (r : res A) : gui A := fun s => (s, r).
Definition modify (f : MainWindow -> MainWindow) : gui unit :=
  fun s => (f s, Ok tt).
Definition gbind {A B} (m : gui A) (k : A -> gui B) : gui B :=
  fun s => match m s with
           | (s', Ok a) => k a s'
           | (s', Raise e) => (s', Raise e)
           end.

End Gui.

Declare Scope gui_scope.
Delimit Scope gui_scope with gui.
Notation "x <- m ;; k" := (Gui.gbind m (fun x => k))
  (at level 61, m at next level, right associativity) : gui_scope.
Notation "m ;; k" := (Gui.gbind m (fun _ => k))
  (at level 61, right associativity) : gui_scope.

Module Window.
Import Py Effects Upload Gui.
#[local] Open Scope gui_scope.

(** How the modal [AuthDialog] ended: accepted, with the token that
    [handle_login] stored in it, or rejected. *)
Inductive dialog_result : Type :=
| Accepted (token : pyval)
| Rejected.

Definition IDLE_TEXT : string := "📁 Select & Upload CSV File".

(** The window when [setup_ui] and [apply_dark_theme] are done. *)
Definition after_setup_ui : MainWindow :=
  {| token := PNone;
     worker := None;
     upload_btn_enabled := true;
     upload_btn_text := IDLE_TEXT;
     file_label_text := "No file selected";
     file_label_style := "color: #718096; font-size: 11px;";
     total_label := "—";
     flowrate_label := "—";
     pressure_label := "—";
     temperature_label := "—";
     canvas := Canvas.clear_plot [];
     status_message := "Ready - Please upload a CSV file";
     message_boxes := [];
     running := [] |}.

(** [MainWindow.show_auth_dialog] *)
Definition show_auth_dialog (dialog : dialog_result) (self : MainWindow)
  : MainWindow :=
  match dialog with
  | Accepted tok =>
      let self := set_token tok self in
      if truthy (token self) then
        set_status_message "Authenticated successfully" self
      else
        message_box Warning "Warning"
                    "Credentials are required to upload files." self
  | Rejected => self
  end.

(** [MainWindow.__init__] *)
Definition init (dialog : dialog_result) : MainWindow :=
  show_auth_dialog dialog after_setup_ui.

(** [MainWindow.upload_file]. [dialog] is how the authentication dialog
    ends if the method opens it, [chosen] the path the file dialog returns
    (empty when the user cancels). *)
Definition upload_file (dialog : dialog_result) (chosen : string)
    (self : MainWindow) : MainWindow :=
  let self :=
    if negb (truthy (token self)) then show_auth_dialog dialog self
    else self in
  if negb (truthy (token self)) then self
  else
    let file_path := chosen in
    if negb (str_truthy file_path) then self
    else
      let filename := basename file_path in
      let self := set_file_label_text ("Selected: " ++ filename) self in
      let self := set_file_label_style "color: #68d391; font-size: 11px;" self in
      let self := set_upload_btn_enabled false self in
      let self := set_upload_btn_text "⏳ Uploading..." self in
      let self := set_status_message "Uploading file to API..." self in
      let w := mk_worker file_path (token self) in
      let self := set_worker (Some w) self in
      set_running (running self ++ [w])%list self.

(** The canvas method, run on the canvas of the window. *)
Definition plot `{Repr} (distribution : pyval) : gui unit :=
  fun s =>
    let (c, r) := Canvas.plot_type_distribution (canvas s) distribution in
    (set_canvas c s, r).

(** [MainWindow.on_upload_success] *)
Definition on_upload_success `{Repr} (data : pydict) : gui unit :=
  modify (set_upload_btn_enabled true) ;;
  modify (set_upload_btn_text IDLE_TEXT) ;;
  let stats := dict_get data "summary_statistics" (PDict []) in
  total_count <- glift (get stats "total_count" (PInt 0)) ;;
  modify (set_total_label (str total_count)) ;;
  avg_flowrate <- glift (get stats "avg_flowrate" (PInt 0)) ;;
  text <- glift (format_2f avg_flowrate) ;;
  modify (set_flowrate_label (text ++ " m³/h")) ;;
  avg_pressure <- glift (get stats "avg_pressure" (PInt 0)) ;;
  text <- glift (format_2f avg_pressure) ;;
  modify (set_pressure_label (text ++ " bar")) ;;
  avg_temperature <- glift (get stats "avg_temperature" (PInt 0)) ;;
  text <- glift (format_2f avg_temperature) ;;
  modify (set_temperature_label (text ++ " °C")) ;;
  type_distribution <- glift (get stats "type_distribution" (PList [])) ;;
  plot type_distribution ;;
  total_count <- glift (get stats "total_count" (PInt 0)) ;;
  modify (set_status_message
            ("✅ Success! Loaded " ++ str total_count
             ++ " equipment records. " ++ "File ID: "
             ++ str (dict_get data "file_id" (PStr "N/A")))) ;;
  modify (set_file_label_style "color: #68d391; font-size: 11px;").

(** [MainWindow.on_upload_error] *)
Definition on_upload_error (error_msg : string) : gui unit :=
  modify (set_upload_btn_enabled true) ;;
  modify (set_upload_btn_text IDLE_TEXT) ;;
  modify (set_file_label_style "color: #fc8181; font-size: 11px;") ;;
  modify (set_status_message ("❌ Error: " ++ error_msg)) ;;
  modify (message_box Critical "Upload Error" error_msg).

(** The slot connected to the signal. *)
Definition slot `{Repr} (sig : signal) : gui unit :=
  match sig with
  | finished d => on_upload_success d
  | error msg => on_upload_error msg
  end.

(** ** The event loop

    The window changes through three kinds of events: a click on the upload
    button, which Qt delivers to [upload_file] only while the button is
    enabled; a click on the credentials button; and the signal of a running
    worker, which is what its [run] emitted and is delivered to the
    connected slot. *)

Fixpoint remove_nth {A} (i : nat) (l : list A) : list A :=
  match i, l with
  | _, [] => []
  | O, _ :: l' => l'
  | S i', x :: l' => x :: remove_nth i' l'
  end.

Inductive ui_event : Type :=
| ClickUpload (dialog : dialog_result) (chosen : string)
| ClickChangeCredentials (dialog : dialog_result)
| WorkerSignal (i : nat) (sig : signal).

Inductive step `{Repr} : MainWindow -> ui_event -> MainWindow -> Prop :=
| step_upload s dialog chosen :
    upload_btn_enabled s = true ->
    step s (ClickUpload dialog chosen) (upload_file dialog chosen s)
| step_credentials s dialog :
    step s (ClickChangeCredentials dialog) (show_auth_dialog dialog s)
| step_signal s i w world sig :
    nth_error (running s) i = Some w ->
    emitted (trace (run world w)) = [sig] ->
    step s (WorkerSignal i sig)
         (fst (slot sig (set_running (remove_nth i (running s)) s))).

(** The states the window can be in. *)
Inductive reachable `{Repr} : MainWindow -> Prop :=
| reach_init dialog : reachable (init dialog)
| reach_step s ev s' : reachable s -> step s ev s' -> reachable s'.

(** An upload is in flight: a worker was started and its signal has not
    been handled. *)
Definition uploading (s : MainWindow) : Prop := running s <> [].

(** The invariant of the event loop. *)
Definition one_upload (s : MainWindow) : Prop :=
  (List.length (running s) <= 1)%nat
  /\ (uploading s -> upload_btn_enabled s = false).

(** Code of the window that neither starts nor forgets a worker thread. *)
Definition keeps_running {A} (m : gui A) : Prop :=
  forall s, running (fst (m s)) = running s.

(** Code of the window that leaves a field as it finds it. *)
Definition keeps {A B} (field : MainWindow -> B) (m : gui A) : Prop :=
  forall s, field (fst (m s)) = field s.

(** The window is idle, or one worker is running: the one the window
    holds, started with a token and a file, the button disabled. *)
Definition idle_or_uploading (s : MainWindow) : Prop :=
  (running s = [] /\ upload_btn_enabled s = true
   /\ upload_btn_text s = IDLE_TEXT)
  \/ (exists w, running s = [w] /\ worker s = Some w
                 /\ upload_btn_enabled s = false
                 /\ upload_btn_text s = "⏳ Uploading..."
                 /\ truthy (Upload.token w) = true
                 /\ file_path w <> "").

End Window.

(* ================================================================= *)
(** * Notions of the specification *)

Module Spec.
Import Py Effects.

(** A numeric field of the statistics, as the float that is displayed: a
    finite float, or an integer that converts to one. *)
Definition finite_number (v : pyval) : option pyfloat :=
  match v with
  | PFloat (FFinite neg m e) => Some (FFinite neg m e)
  | PInt z => float_of_int z
  | _ => None
  end.

(** A text with exactly two decimal places: an optional sign, the digits
    of a natural number, a point and two digits. *)
Definition two_decimals (s : string) : Prop :=
  exists (sign : string) (n d1 d2 : Z),
    (sign = "" \/ sign = "-")
    /\ 0 <= n /\ 0 <= d1 <= 9 /\ 0 <= d2 <= 9
    /\ s = sign ++ str_int n ++ "." ++ digit d1 ++ digit d2.

End Spec.

(* ================================================================= *)
(** * Sample data *)

Module Samples.
Import Py Effects Upload Gui Window.

(** Stands for the interpreter's [repr] in the examples; none of them
    comes to it. *)
Definition opaque_repr : Repr := fun v => "<" ++ type_name v ++ ">".

Definition worker_pumps : UploadWorker :=
  mk_worker "/data/pumps.csv" (PStr "abc123").

(** A world where the file opens and the server answers [r]. *)
Definition answering (r : response) : world :=
  {| fs_open := fun _ => Ok tt; http_post := fun _ => Ok r |}.

(** A world where the file opens and [requests.post] raises [e]. *)
Definition failing (e : exn) : world :=
  {| fs_open := fun _ => Ok tt; http_post := fun _ => Raise e |}.

Definition file_not_found : exn :=
  mk_exn (OtherException "FileNotFoundError")
         "[Errno 2] No such file or directory: '/data/pumps.csv'".

(** A world where the file cannot be opened. *)
Definition without_file : world :=
  {| fs_open := fun _ => Raise file_not_found;
     http_post := fun _ => Raise (mk_exn ConnectionError "unreachable") |}.

(** The double nearest to [1.2]. *)
Definition one_point_two : pyfloat := FFinite false 5404319552844595 (-52).

Definition pumps_and_valves : list pyval :=
  [PDict [("type", PStr "Pump"); ("count", PInt 2)];
   PDict [("type", PStr "Valve"); ("count", PInt 1)]].

(** The body of scenario B. *)
Definition scenario_b : pydict :=
  [("file_id", PStr "f1");
   ("summary_statistics",
    PDict [("total_count", PInt 3);
           ("avg_flowrate", PFloat (FFinite false 25 (-1)));
           ("avg_pressure", PFloat one_point_two);
           ("avg_temperature", PFloat (FFinite false 25 0));
           ("type_distribution", PList pumps_and_valves)])].

(** Bodies in which an average is present and is not a finite number:
    [null], and a number too large for a double ([1e999] decodes to an
    infinity). *)
Definition null_average : pydict :=
  [("summary_statistics", PDict [("avg_flowrate", PNone)])].

Definition infinite_average : pydict :=
  [("summary_statistics", PDict [("avg_flowrate", PFloat (FInf false))])].

Definition created : response :=
  {| status_code := 201; text := "{...}"; json := inr (PDict scenario_b) |}.

Definition unauthorized : response :=
  {| status_code := 401;
     text := "{...}";
     json := inr (PDict [("detail", PStr "Invalid token.")]) |}.

Definition bad_request : response :=
  {| status_code := 400;
     text := "{...}";
     json := inr (PDict [("error", PStr "No file provided")]) |}.

(** A gateway answering with a page that is no JSON. *)
Definition bad_gateway : response :=
  {| status_code := 502;
     text := "<html>Bad Gateway</html>";
     json := inl "Expecting value: line 1 column 1 (char 0)" |}.

(** The window after a successful login, and after one upload was
    started from it. *)
Definition logged_in : MainWindow := init (Accepted (PStr "abc123")).

Definition uploading_pumps : MainWindow :=
  upload_file Rejected "/data/pumps.csv" logged_in.

(** Answers of the login endpoint: a token, an object without one, and a
    page that is no JSON. *)
Definition token_granted : response :=
  {| status_code := 200;
     text := "{...}";
     json := inr (PDict [("token", PStr "abc123")]) |}.

Definition token_missing : response :=
  {| status_code := 200;
     text := "{...}";
     json := inr (PDict [("detail", PStr "ok")]) |}.

Definition login_page : response :=
  {| status_code := 200;
     text := "<html>Sign in</html>";
     json := inl "Expecting value: line 1 column 1 (char 0)" |}.

(** A distribution with an entry that has no count, and a body that holds
    it. *)
Definition pump_without_count : list pyval :=
  [PDict [("type", PStr "Pump"); ("count", PInt 2)];
   PDict [("type", PStr "Valve")]].

Definition body_without_count : pydict :=
  [("file_id", PStr "f2");
   ("summary_statistics",
    PDict [("total_count", PInt 3);
           ("avg_flowrate", PInt 12);
           ("type_distribution", PList pump_without_count)])].

(** An error answer whose body is a JSON list. *)
Definition error_list : response :=
  {| status_code := 400;
     text := "[...]";
     json := inr (PList [PStr "This field is required."]) |}.

End Samples.

(* ================================================================= *)
(** * Properties of [UploadWorker.run] *)

Section UploadProperties.
Import Py Effects Upload.
Context `{Repr}.

(** Whatever exception reaches the [except] clauses, exactly one of them
    runs, and it emits [error] once. *)
Lemma run_except_emits (e : exn) :
  exists msg, run_except e = ([EvEmit (error msg)], Ok tt).
Proof.
  unfold run_except, error_emit, emit_event.
  destruct (isinstance_ConnectionError e); [eauto|].
  destruct (isinstance_Timeout e); eauto.
Qed.

(** The response is handled by emitting once, or by raising before
    anything is emitted. *)
Lemma on_response_cases (r : response) :
  (exists sig, on_response r = ([EvEmit sig], Ok tt))
  \/ (exists e, on_response r = ([], Raise e)).
Proof.
  unfold on_response, response_json, finished_emit, error_emit, emit_event,
    get, lift, raise, bind.
  destruct (status_code r =? 201).
  - destruct (json r) as [msg|v]; [right; eauto|].
    destruct v; simpl; eauto.
  - destruct (status_code r =? 401); [left; eauto|].
    destruct (json r) as [msg|v]; [right; eauto|].
    destruct v; simpl; eauto.
Qed.

(** [run] when the file cannot be opened. *)
Lemma run_open_raises (w : world) (self : UploadWorker) (e : exn) :
  fs_open w (file_path self) = Raise e ->
  run w self
  = ((EvOpen (file_path self) "rb" :: trace (run_except e))%list, Ok tt).
Proof.
  intros Hopen. unfold run, with_open, bind, try_except. rewrite Hopen.
  destruct (run_except_emits e) as [msg ->]. reflexivity.
Qed.

(** [run] when [requests.post] raises. *)
Lemma run_post_raises (w : world) (self : UploadWorker) (e : exn) :
  fs_open w (file_path self) = Ok tt ->
  http_post w (upload_request self) = Raise e ->
  run w self
  = (([EvOpen (file_path self) "rb"; EvPost (upload_request self);
       EvClose (file_path self)] ++ trace (run_except e))%list, Ok tt).
Proof.
  intros Hopen Hpost.
  unfold run, with_open, post, finally, bind, try_except.
  rewrite Hopen. simpl. rewrite Hpost.
  destruct (run_except_emits e) as [msg ->]. reflexivity.
Qed.

(** [run] when the server answers. *)
Lemma run_post_returns (w : world) (self : UploadWorker) (r : response) :
  fs_open w (file_path self) = Ok tt ->
  http_post w (upload_request self) = Ok r ->
  run w self
  = (([EvOpen (file_path self) "rb"; EvPost (upload_request self);
       EvClose (file_path self)]
      ++ trace (try_except (on_response r) run_except))%list, Ok tt).
Proof.
  intros Hopen Hpost.
  unfold run, with_open, post, finally, bind, try_except.
  rewrite Hopen. simpl. rewrite Hpost.
  destruct (on_response_cases r) as [[sig ->]|[e ->]].
  - reflexivity.
  - destruct (run_except_emits e) as [msg ->]. reflexivity.
Qed.

(** C2. Every execution of [UploadWorker.run] returns, and emits exactly
    one signal on the way: either [finished] with the decoded response or
    [error] with a message, never none and never both. *)
Theorem run_emits_exactly_one_signal (w : world) (self : UploadWorker) :
  snd (run w self) = Ok tt
  /\ ((exists d, emitted (trace (run w self)) = [finished d])
      \/ (exists msg, emitted (trace (run w self)) = [error msg])).
Proof.
  assert (Hsig : forall sig : signal,
             (exists d, [sig] = [finished d]) \/ (exists msg, [sig] = [error msg])).
  { intros [d|msg]; eauto. }
  destruct (fs_open w (file_path self)) as [[]|e] eqn:Hopen.
  - destruct (http_post w (upload_request self)) as [r|e] eqn:Hpost.
    + rewrite (run_post_returns _ _ _ Hopen Hpost). split; [reflexivity|].
      destruct (on_response_cases r) as [[sig ->]|[e ->]]; simpl.
      * apply Hsig.
      * destruct (run_except_emits e) as [msg ->]. simpl. eauto.
    + rewrite (run_post_raises _ _ _ Hopen Hpost). split; [reflexivity|].
      destruct (run_except_emits e) as [msg ->]. simpl. eauto.
  - rewrite (run_open_raises _ _ _ Hopen). split; [reflexivity|].
    destruct (run_except_emits e) as [msg ->]. simpl. eauto.
Qed.

(** C3, as amended. With the file open:
    - a 201 response whose body decodes to a JSON object emits [finished]
      with that object;
    - a 401 response emits the authentication message, whatever its body;
    - any other status whose body decodes to a JSON object emits
      ["API Error: "] followed by [str] of the object's [error] member
      (of ["Unknown error occurred"] when there is none);
    - a body that is not valid JSON, under any status but 401, is reported
      by the last [except] clause: ["Error: "] and the decoder's text;
    - an exception of [requests.post] that is a [ConnectionError] emits the
      connection message; one that is a [Timeout] and no [ConnectionError]
      emits the time-out message; any other emits ["Error: "] and its
      text. *)
Theorem response_mapping (w : world) (self : UploadWorker) :
  fs_open w (file_path self) = Ok tt ->
  (forall r, http_post w (upload_request self) = Ok r ->
     (forall d, status_code r = 201 -> json r = inr (PDict d) ->
        emitted (trace (run w self)) = [finished d])
     /\ (status_code r = 401 ->
         emitted (trace (run w self))
         = [error "Authentication failed. Please check your credentials."])
     /\ (forall d, status_code r <> 201 -> status_code r <> 401 ->
         json r = inr (PDict d) ->
         emitted (trace (run w self))
         = [error ("API Error: "
                   ++ str (dict_get d "error" (PStr "Unknown error occurred")))])
     /\ (forall detail, status_code r <> 401 -> json r = inl detail ->
         emitted (trace (run w self)) = [error ("Error: " ++ detail)]))
  /\ (forall e, http_post w (upload_request self) = Raise e ->
        (isinstance_ConnectionError e = true ->
         emitted (trace (run w self))
         = [error "Connection failed. Is the Django server running?"])
        /\ (isinstance_ConnectionError e = false ->
            isinstance_Timeout e = true ->
            emitted (trace (run w self))
            = [error "Request timed out. Please try again."])
        /\ (isinstance_ConnectionError e = false ->
            isinstance_Timeout e = false ->
            emitted (trace (run w self)) = [error ("Error: " ++ exn_str e)])).
Proof.
  intros Hopen. split.
  - intros r Hpost. rewrite (run_post_returns _ _ _ Hopen Hpost).
    unfold on_response, response_json, finished_emit, error_emit, emit_event,
      get, lift, bind, try_except.
    repeat split.
    + intros d Hst Hjson. rewrite Hst, Hjson. reflexivity.
    + intros Hst. rewrite Hst. reflexivity.
    + intros d H201 H401 Hjson.
      apply Z.eqb_neq in H201, H401. rewrite H201, H401, Hjson. simpl.
      destruct (dict_get d "error" (PStr "Unknown error occurred"));
        reflexivity.
    + intros detail H401 Hjson.
      apply Z.eqb_neq in H401. rewrite H401, Hjson.
      destruct (status_code r =? 201); reflexivity.
  - intros e Hpost. rewrite (run_post_raises _ _ _ Hopen Hpost).
    unfold run_except, error_emit, emit_event.
    repeat split.
    + intros ->. reflexivity.
    + intros -> ->. reflexivity.
    + intros -> ->. reflexivity.
Qed.

(** C5, as amended. When the file cannot be opened, [run] has asked for it
    in binary mode and sends no request; what it emits is decided by the
    same [except] clauses as any other exception. [open] raises an
    [OSError], which is no [requests] exception, so the signal is the
    generic ["Error: "] message: the very signal that the same exception
    raised inside [requests.post] produces. *)
Theorem open_failure_is_generic (w : world) (self : UploadWorker) (e : exn)
    (name : string) :
  fs_open w (file_path self) = Raise e ->
  exn_cls e = OtherException name ->
  run w self
  = ([EvOpen (file_path self) "rb"; EvEmit (error ("Error: " ++ exn_str e))],
     Ok tt)
  /\ existsb is_post (trace (run w self)) = false
  /\ (forall w', fs_open w' (file_path self) = Ok tt ->
        http_post w' (upload_request self) = Raise e ->
        emitted (trace (run w' self)) = emitted (trace (run w self))).
Proof.
  intros Hopen Hcls.
  assert (Hex : run_except e = ([EvEmit (error ("Error: " ++ exn_str e))], Ok tt)).
  { unfold run_except, isinstance_ConnectionError, isinstance_Timeout.
    rewrite Hcls. reflexivity. }
  rewrite (run_open_raises _ _ _ Hopen), Hex. simpl.
  repeat split.
  intros w' Hopen' Hpost'.
  rewrite (run_post_raises _ _ _ Hopen' Hpost'), Hex. reflexivity.
Qed.

(** C10. When the status is neither 201 nor 401 and the body is not valid
    JSON, decoding it raises before any ["API Error: "] message is built;
    the last [except] clause emits ["Error: "] with the decoder's text, and
    that is the only signal. *)
Theorem undecodable_error_body_is_generic
    (w : world) (self : UploadWorker) (r : response) (detail : string) :
  fs_open w (file_path self) = Ok tt ->
  http_post w (upload_request self) = Ok r ->
  status_code r <> 201 ->
  status_code r <> 401 ->
  json r = inl detail ->
  emitted (trace (run w self)) = [error ("Error: " ++ detail)]
  /\ forall message,
       emitted (trace (run w self)) <> [error ("API Error: " ++ message)].
Proof.
  intros Hopen Hpost H201 H401 Hjson.
  rewrite (run_post_returns _ _ _ Hopen Hpost).
  unfold on_response, response_json, lift, bind, try_except.
  apply Z.eqb_neq in H201, H401. rewrite H201, H401, Hjson. simpl.
  split; [reflexivity|]. intros message Heq. discriminate Heq.
Qed.

End UploadProperties.

(* ================================================================= *)
(** * Properties of [AuthDialog.authenticate] *)

Section AuthProperties.
Import Py Effects Auth.

Lemma str_truthy_empty (s : string) : str_truthy s = false <-> s = "".
Proof.
  unfold str_truthy. destruct (String.eqb_spec s ""); simpl; split;
    congruence.
Qed.

(** What code has done before it goes on, or before its exception is
    caught, stays done. *)
Lemma trace_bind {A B} (m : io A) (k : A -> io B) :
  exists t, trace (bind m k) = (trace m ++ t)%list.
Proof.
  destruct m as [t [a|e]]; unfold bind, trace; simpl.
  - destruct (k a) as [t' r]. simpl. eauto.
  - exists []. now rewrite app_nil_r.
Qed.

Lemma trace_try_except {A} (m : io A) (h : exn -> io A) :
  exists t, trace (try_except m h) = (trace m ++ t)%list.
Proof.
  destruct m as [t [a|e]]; unfold try_except, trace; simpl.
  - exists []. now rewrite app_nil_r.
  - destruct (h e) as [t' r]. simpl. eauto.
Qed.

(** C4, as amended. When either field is empty, [authenticate] warns and
    returns [None] without sending anything. A field is empty only when it
    has no character: on any other pair, blanks included, the first thing
    [authenticate] does is to post the pair to the login endpoint. *)
Theorem authenticate_missing_input (w : world) (username password : string) :
  (username = "" \/ password = "" ->
   authenticate w username password
   = ([EvMessageBox Warning "Error" "Please enter username and password"],
      Ok PNone))
  /\ (username <> "" -> password <> "" ->
      hd_error (trace (authenticate w username password))
      = Some (EvPost (login_request username password))).
Proof.
  split.
  - intros Hempty. unfold authenticate.
    assert (Htest : negb (str_truthy username) || negb (str_truthy password)
                    = true).
    { destruct Hempty as [-> | ->]; [reflexivity|].
      rewrite orb_true_iff. right. reflexivity. }
    rewrite Htest. reflexivity.
  - intros Hu Hp. unfold authenticate.
    destruct (str_truthy username) eqn:Eu;
      [|apply str_truthy_empty in Eu; contradiction].
    destruct (str_truthy password) eqn:Ep;
      [|apply str_truthy_empty in Ep; contradiction].
    simpl negb. simpl orb. cbv iota.
    match goal with
    | |- hd_error (trace (try_except (bind ?m ?k) ?h)) = _ =>
        destruct (trace_try_except (bind m k) h) as [t1 ->];
        destruct (trace_bind m k) as [t2 ->]
    end.
    reflexivity.
Qed.

End AuthProperties.

(* ================================================================= *)
(** * Properties of [MatplotlibCanvas.plot_type_distribution] *)

Section CanvasProperties.
Import Py Effects Canvas.
Context `{Repr}.
#[local] Open Scope nat_scope.
#[local] Open Scope list_scope.

Lemma entries_columns (items : list pyval) (d : list (pyval * pyval)) :
  entries items = Some d ->
  column "type" items = Ok (map fst d)
  /\ column "count" items = Ok (map snd d)
  /\ List.length d = List.length items.
Proof.
  revert d. induction items as [|item rest IH]; intros d Hd; simpl in Hd.
  - injection Hd as <-. repeat split.
  - destruct (entry item) as [[t c]|] eqn:Hitem; [|discriminate].
    destruct (entries rest) as [es|]; [|discriminate].
    injection Hd as <-.
    destruct (IH es eq_refl) as (Ht & Hc & Hlen).
    unfold entry in Hitem. destruct item; try discriminate.
    destruct (lookup "type" d) as [t'|] eqn:Lt; [|discriminate].
    destruct (lookup "count" d) as [c'|] eqn:Lc; [|discriminate].
    injection Hitem as -> ->.
    simpl. rewrite Lt, Lc, Ht, Hc, Hlen. repeat split.
Qed.

Lemma bars_app (c1 c2 : canvas) : bars (c1 ++ c2) = bars c1 ++ bars c2.
Proof.
  induction c1 as [|x c1 IH]; [reflexivity|].
  destruct x; simpl; rewrite IH; try reflexivity. now rewrite app_assoc.
Qed.

Lemma value_labels_app (c1 c2 : canvas) :
  value_labels (c1 ++ c2) = value_labels c1 ++ value_labels c2.
Proof.
  induction c1 as [|x c1 IH]; [reflexivity|].
  destruct x; simpl; rewrite IH; reflexivity.
Qed.

Lemma bars_annotations (i n : nat) (counts : list pyval) :
  bars (annotations i n counts) = [].
Proof.
  revert i counts. induction n as [|n IH]; intros i [|c counts]; simpl; auto.
Qed.

Lemma value_labels_annotations (k n : nat) (counts : list pyval) :
  value_labels (annotations k n counts)
  = map (fun ic => (str (snd ic), fst ic))
        (combine (seq k n) counts).
Proof.
  revert k counts. induction n as [|n IH]; intros k [|c counts]; simpl; auto.
  now rewrite IH.
Qed.

Lemma zip3_length (xs hs : list pyval) (cs : list string) :
  List.length hs = List.length xs -> List.length cs = List.length xs ->
  List.length (zip3 xs hs cs) = List.length xs.
Proof.
  revert hs cs. induction xs as [|x xs IH]; intros [|h hs] [|c cs];
    simpl; try discriminate; auto.
Qed.

Lemma zip3_nth (xs hs : list pyval) (cs : list string) (i : nat) x h c :
  nth_error xs i = Some x -> nth_error hs i = Some h ->
  nth_error cs i = Some c ->
  nth_error (zip3 xs hs cs) i = Some (x, h, c).
Proof.
  revert xs hs cs.
  induction i as [|i IH]; intros [|x' xs] [|h' hs] [|c' cs]; simpl;
    try discriminate.
  - now intros [= ->] [= ->] [= ->].
  - apply IH.
Qed.

Lemma bar_colors_length (n : nat) : List.length (bar_colors n) = n.
Proof. unfold bar_colors. now rewrite length_map, length_seq. Qed.

Lemma bar_colors_nth (n i : nat) :
  i < n -> nth_error (bar_colors n) i = Some (nth (i mod 7) colors "").
Proof.
  intros Hi. unfold bar_colors. rewrite nth_error_map, nth_error_seq.
  apply Nat.ltb_lt in Hi. rewrite Hi. reflexivity.
Qed.

Lemma combine_seq_nth {A} (k n : nat) (l : list A) (i : nat) (a : A) :
  i < n -> nth_error l i = Some a ->
  nth_error (combine (seq k n) l) i = Some (k + i, a).
Proof.
  revert k l i. induction n as [|n IH]; intros k l i Hi Ha; [lia|].
  destruct l as [|b l]; [destruct i; discriminate|].
  destruct i as [|i]; simpl in *.
  - injection Ha as ->. now rewrite Nat.add_0_r.
  - rewrite (IH (S k) l i) by (auto; lia). f_equal. f_equal. lia.
Qed.

(** What the canvas shows after the non-empty branch. *)
Lemma chart_shows (types counts : list pyval) :
  bars (chart types counts)
  = zip3 types counts (bar_colors (List.length types))
  /\ value_labels (chart types counts)
     = map (fun ic => (str (snd ic), fst ic))
           (combine (seq 0 (List.length types)) counts).
Proof.
  unfold chart. split.
  - rewrite !bars_app, bars_annotations. simpl. now rewrite !app_nil_r.
  - rewrite !value_labels_app, value_labels_annotations. simpl.
    now rewrite app_nil_r.
Qed.

(** C8. For a non-empty distribution of [n] entries, the canvas shows
    exactly [n] bars and [n] value labels. The bar at index [i] is the
    entry at index [i] (its type and its count), in the colour
    [colors[i mod 7]] of the fixed palette, and the label at index [i] is
    attached to that bar and reads [str] of the entry's count: for an
    integer count, its decimal digits. *)
Theorem plot_draws_one_bar_per_entry
    (self : canvas) (items : list pyval) (d : list (pyval * pyval)) :
  items <> [] ->
  entries items = Some d ->
  let result := plot_type_distribution self (PList items) in
  snd result = Ok tt
  /\ List.length (bars (fst result)) = List.length items
  /\ List.length (value_labels (fst result)) = List.length items
  /\ (forall i t c,
        nth_error d i = Some (t, c) ->
        nth_error (bars (fst result)) i
        = Some (t, c, nth (i mod 7) colors "")
        /\ nth_error (value_labels (fst result)) i = Some (str c, i))
  /\ (forall i t z,
        nth_error d i = Some (t, PInt z) ->
        nth_error (value_labels (fst result)) i = Some (str_int z, i)).
Proof.
  intros Hne Hd.
  destruct (entries_columns _ _ Hd) as (Ht & Hc & Hlen).
  assert (Hres : plot_type_distribution self (PList items)
                 = (chart (map fst d) (map snd d), Ok tt)).
  { unfold plot_type_distribution. destruct items as [|item rest];
      [contradiction|].
    cbn [truthy negb iterate]. rewrite Ht, Hc. reflexivity. }
  cbv zeta. rewrite Hres. cbn [fst snd].
  destruct (chart_shows (map fst d) (map snd d)) as [-> ->].
  rewrite length_map.
  assert (Hcell : forall i t c,
             nth_error d i = Some (t, c) ->
             nth_error (zip3 (map fst d) (map snd d)
                             (bar_colors (List.length d))) i
             = Some (t, c, nth (i mod 7) colors "")
             /\ nth_error
                  (map (fun ic : nat * pyval => (str (snd ic), fst ic))
                       (combine (seq 0 (List.length d)) (map snd d))) i
                = Some (str c, i)).
  { intros i t c Hi.
    assert (Hlt : i < List.length d).
    { apply nth_error_Some. rewrite Hi. discriminate. }
    split.
    - apply zip3_nth.
      + now rewrite nth_error_map, Hi.
      + now rewrite nth_error_map, Hi.
      + now apply bar_colors_nth.
    - rewrite nth_error_map.
      rewrite (combine_seq_nth 0 (List.length d) (map snd d) i c Hlt).
      + reflexivity.
      + now rewrite nth_error_map, Hi. }
  repeat split.
  - rewrite zip3_length; rewrite ?length_map, ?bar_colors_length; auto.
  - rewrite length_map, length_combine, length_seq, length_map. lia.
  - now apply (Hcell i t c).
  - now apply (Hcell i t c).
  - intros i t z Hi. now apply (Hcell i t (PInt z)).
Qed.

(** C9. For the empty distribution the canvas shows the placeholder text,
    centred in the axes, and nothing else: no bar, no value label, and none
    of the calls that set up axis labels, title, tick labels or grid. *)
Theorem plot_empty_shows_placeholder (self : canvas) :
  let result := plot_type_distribution self (PList []) in
  snd result = Ok tt
  /\ fst result
     = [Text half half "No data to display"
             [("ha", PStr "center"); ("va", PStr "center");
              ("fontsize", PInt 14); ("color", PStr "#888888")];
        Draw]
  /\ bars (fst result) = []
  /\ value_labels (fst result) = []
  /\ existsb decorates (fst result) = false.
Proof. repeat split. Qed.

End CanvasProperties.

(* ================================================================= *)
(** * Properties of the handlers of [MainWindow] *)

Section WindowProperties.
Import Py Effects Upload Gui Window Spec.
Context `{Repr}.

(** C6. [on_upload_error] returns, and leaves the four statistics and the
    chart as they were; so are the token, the worker, the name of the
    selected file and the running threads. It re-enables the upload button
    and restores its text, shows the message in the status bar and in a
    message box, and turns the file label to the error colour. *)
Theorem on_upload_error_keeps_statistics (error_msg : string) (s : MainWindow) :
  let s' := fst (on_upload_error error_msg s) in
  snd (on_upload_error error_msg s) = Ok tt
  /\ total_label s' = total_label s
  /\ flowrate_label s' = flowrate_label s
  /\ pressure_label s' = pressure_label s
  /\ temperature_label s' = temperature_label s
  /\ canvas s' = canvas s
  /\ token s' = token s
  /\ worker s' = worker s
  /\ file_label_text s' = file_label_text s
  /\ running s' = running s
  /\ upload_btn_enabled s' = true
  /\ upload_btn_text s' = IDLE_TEXT
  /\ status_message s' = "❌ Error: " ++ error_msg
  /\ message_boxes s'
     = (message_boxes s ++ [(Critical, "Upload Error", error_msg)])%list
  /\ file_label_style s' = "color: #fc8181; font-size: 11px;".
Proof. repeat split. Qed.

Lemma round_half_even_nonneg (num den : Z) :
  0 <= num -> 0 < den -> 0 <= round_half_even num den.
Proof.
  intros Hn Hd. unfold round_half_even.
  assert (0 <= num / den) by (apply Z.div_pos; lia).
  destruct (_ || _); lia.
Qed.

Lemma hundredths_nonneg (m : N) (e : Z) : 0 <= hundredths m e.
Proof.
  unfold hundredths. destruct (0 <=? e) eqn:He.
  - apply Z.leb_le in He.
    assert (0 <= 2 ^ e) by (apply Z.pow_nonneg; lia). nia.
  - apply Z.leb_gt in He. apply round_half_even_nonneg; [lia|].
    apply Z.pow_pos_nonneg; lia.
Qed.

Lemma finite_number_is_finite (v : pyval) (x : pyfloat) :
  finite_number v = Some x -> exists neg m e, x = FFinite neg m e.
Proof.
  destruct v as [| | z | [neg m e| |] | | |]; simpl; try discriminate.
  - unfold float_of_int. destruct (_ <=? 53).
    + intros [= <-]. eauto.
    + destruct (2 ^ 1024 <=? _); [discriminate|]. intros [= <-]. eauto.
  - intros [= <-]. eauto.
Qed.

(** The format [.2f] yields two decimal places on every finite number. *)
Lemma finite_number_two_decimals (v : pyval) (x : pyfloat) :
  finite_number v = Some x ->
  format_2f v = Ok (format_2f_float x) /\ two_decimals (format_2f_float x).
Proof.
  intros Hv. split.
  - destruct v as [| | z | [neg m e| |] | | |]; simpl in *; try discriminate.
    + now rewrite Hv.
    + now injection Hv as <-.
  - destruct (finite_number_is_finite _ _ Hv) as (neg & m & e & ->).
    pose proof (hundredths_nonneg m e) as Hh.
    exists (if neg then "-" else ""), (hundredths m e / 100),
      (hundredths m e / 10 mod 10), (hundredths m e mod 10).
    repeat split.
    + destruct neg; auto.
    + apply Z.div_pos; lia.
    + apply Z.mod_pos_bound; lia.
    + assert (hundredths m e / 10 mod 10 < 10) by (apply Z.mod_pos_bound; lia).
      lia.
    + apply Z.mod_pos_bound; lia.
    + assert (hundredths m e mod 10 < 10) by (apply Z.mod_pos_bound; lia).
      lia.
Qed.

(** C7, as amended. Let the body of a 201 response hold, under
    [summary_statistics], an object (or nothing) in which [total_count] is
    an integer or missing and each of the three averages is a finite number
    or missing. Then [on_upload_success] reads each missing field as [0],
    shows the total as its decimal digits and each average with exactly two
    decimal places followed by its unit, and hands [type_distribution], or
    the empty list when it is missing, to the chart renderer: the canvas is
    what the renderer leaves, and the handler returns if the renderer
    does. *)
Theorem on_upload_success_publishes
    (data stats : pydict) (s : MainWindow) (total : Z)
    (flowrate pressure temperature : pyfloat) :
  dict_get data "summary_statistics" (PDict []) = PDict stats ->
  dict_get stats "total_count" (PInt 0) = PInt total ->
  finite_number (dict_get stats "avg_flowrate" (PInt 0)) = Some flowrate ->
  finite_number (dict_get stats "avg_pressure" (PInt 0)) = Some pressure ->
  finite_number (dict_get stats "avg_temperature" (PInt 0)) = Some temperature ->
  let s' := fst (on_upload_success data s) in
  let rendered :=
    Canvas.plot_type_distribution
      (canvas s) (dict_get stats "type_distribution" (PList [])) in
  total_label s' = str_int total
  /\ flowrate_label s' = format_2f_float flowrate ++ " m³/h"
  /\ pressure_label s' = format_2f_float pressure ++ " bar"
  /\ temperature_label s' = format_2f_float temperature ++ " °C"
  /\ two_decimals (format_2f_float flowrate)
  /\ two_decimals (format_2f_float pressure)
  /\ two_decimals (format_2f_float temperature)
  /\ canvas s' = fst rendered
  /\ snd (on_upload_success data s) = snd rendered
  /\ (lookup "total_count" stats = None -> total_label s' = "0")
  /\ (lookup "avg_flowrate" stats = None -> flowrate_label s' = "0.00 m³/h")
  /\ (lookup "avg_pressure" stats = None -> pressure_label s' = "0.00 bar")
  /\ (lookup "avg_temperature" stats = None ->
      temperature_label s' = "0.00 °C")
  /\ (lookup "type_distribution" stats = None ->
      canvas s' = Canvas.placeholder).
Proof.
  intros Hstats Htotal Hf Hp Ht.
  destruct (finite_number_two_decimals _ _ Hf) as [Ff Df].
  destruct (finite_number_two_decimals _ _ Hp) as [Fp Dp].
  destruct (finite_number_two_decimals _ _ Ht) as [Ft Dt].
  assert (Hrun : on_upload_success data s
    = let s1 :=
        set_temperature_label (format_2f_float temperature ++ " °C")
          (set_pressure_label (format_2f_float pressure ++ " bar")
             (set_flowrate_label (format_2f_float flowrate ++ " m³/h")
                (set_total_label (str_int total)
                   (set_upload_btn_text IDLE_TEXT
                      (set_upload_btn_enabled true s))))) in
      let rendered :=
        Canvas.plot_type_distribution
          (canvas s) (dict_get stats "type_distribution" (PList [])) in
      match snd rendered with
      | Ok _ =>
          (set_file_label_style "color: #68d391; font-size: 11px;"
             (set_status_message
                ("✅ Success! Loaded " ++ str_int total
                 ++ " equipment records. " ++ "File ID: "
                 ++ str (dict_get data "file_id" (PStr "N/A")))
                (set_canvas (fst rendered) s1)), Ok tt)
      | Raise e => (set_canvas (fst rendered) s1, Raise e)
      end).
  { unfold on_upload_success, gbind, modify, glift, plot.
    rewrite Hstats. cbn [get]. rewrite Htotal, Ff, Fp, Ft.
    cbn [str canvas set_temperature_label set_pressure_label
         set_flowrate_label set_total_label set_upload_btn_text
         set_upload_btn_enabled].
    destruct (Canvas.plot_type_distribution _ _) as [c [[]|e]]; reflexivity. }
  cbv zeta. rewrite Hrun. cbv zeta.
  assert (Hzero : forall k x,
             lookup k stats = None ->
             finite_number (dict_get stats k (PInt 0)) = Some x ->
             format_2f_float x = "0.00").
  { intros k x Hk. unfold dict_get. rewrite Hk. intros [= <-]. reflexivity. }
  destruct (Canvas.plot_type_distribution _ _) as [c r] eqn:Hplot.
  assert (Hmissing : lookup "type_distribution" stats = None ->
                     c = Canvas.placeholder).
  { intros Hk. unfold dict_get in Hplot. rewrite Hk in Hplot.
    now injection Hplot as <- _. }
  assert (Htotal0 : lookup "total_count" stats = None -> str_int total = "0").
  { intros Hk. unfold dict_get in Htotal. rewrite Hk in Htotal.
    now injection Htotal as <-. }
  destruct r as [[]|e]; cbn [fst snd total_label flowrate_label pressure_label
    temperature_label canvas set_file_label_style set_status_message
    set_canvas set_temperature_label set_pressure_label set_flowrate_label
    set_total_label];
    (repeat split; auto;
     intros Hk;
     [ now rewrite (Hzero _ _ Hk Hf)
     | now rewrite (Hzero _ _ Hk Hp)
     | now rewrite (Hzero _ _ Hk Ht) ]).
Qed.

(** ** Mutual exclusion of uploads *)

Lemma keeps_running_modify (f : MainWindow -> MainWindow) :
  (forall s, running (f s) = running s) -> keeps_running (modify f).
Proof. intros Hf s. apply Hf. Qed.

Lemma keeps_running_glift {A} (r : res A) : keeps_running (glift r).
Proof. intros s. reflexivity. Qed.

Lemma keeps_running_gbind {A B} (m : gui A) (k : A -> gui B) :
  keeps_running m -> (forall a, keeps_running (k a)) ->
  keeps_running (gbind m k).
Proof.
  intros Hm Hk s. unfold gbind. specialize (Hm s).
  destruct (m s) as [s1 [a|e]]; simpl in *.
  - now rewrite Hk.
  - exact Hm.
Qed.

Lemma keeps_running_plot (distribution : pyval) :
  keeps_running (plot distribution).
Proof.
  intros s. unfold plot.
  now destruct (Canvas.plot_type_distribution _ _).
Qed.

Create HintDb running.
#[local] Hint Resolve keeps_running_glift keeps_running_plot : running.

Ltac keeps_running_steps :=
  repeat first
    [ apply keeps_running_gbind; [|intros ?]
    | apply keeps_running_modify; intros ?; reflexivity
    | solve [auto with running] ].

(** Neither handler starts or forgets a thread, wherever it stops. *)
Lemma slot_keeps_running (sig : signal) : keeps_running (slot sig).
Proof.
  destruct sig as [d|msg]; unfold slot, on_upload_success, on_upload_error;
    keeps_running_steps.
Qed.

(** The authentication dialog touches neither the threads nor the
    button. *)
Lemma show_auth_dialog_keeps (dialog : dialog_result) (s : MainWindow) :
  running (show_auth_dialog dialog s) = running s
  /\ upload_btn_enabled (show_auth_dialog dialog s) = upload_btn_enabled s.
Proof.
  destruct dialog as [tok|]; simpl; [|auto].
  destruct (truthy tok); auto.
Qed.

(** [upload_file] either returns early, leaving the threads and the button
    alone, or starts one worker and disables the button. *)
Lemma upload_file_cases (dialog : dialog_result) (chosen : string)
    (s : MainWindow) :
  (running (upload_file dialog chosen s) = running s
   /\ upload_btn_enabled (upload_file dialog chosen s) = upload_btn_enabled s)
  \/ (exists w, running (upload_file dialog chosen s)
                = (running s ++ [w])%list
                /\ upload_btn_enabled (upload_file dialog chosen s) = false).
Proof.
  unfold upload_file.
  destruct (negb (truthy (token s))).
  - destruct (show_auth_dialog_keeps dialog s) as [Hr Hb].
    destruct (negb (truthy (token (show_auth_dialog dialog s)))); [auto|].
    destruct (negb (str_truthy chosen)); [auto|].
    right. eexists. simpl. rewrite Hr. auto.
  - destruct (negb (truthy (token s))); [auto|].
    destruct (negb (str_truthy chosen)); [auto|].
    right. eexists. simpl. auto.
Qed.

Lemma nth_error_singleton {A} (l : list A) (i : nat) (a : A) :
  (List.length l <= 1)%nat -> nth_error l i = Some a ->
  remove_nth i l = [].
Proof.
  destruct l as [|x [|y l]]; simpl; intros Hlen Hi.
  - destruct i; discriminate.
  - destruct i as [|i]; [reflexivity|]. destruct i; discriminate.
  - lia.
Qed.

Lemma step_one_upload (s s' : MainWindow) (ev : ui_event) :
  one_upload s -> step s ev s' -> one_upload s'.
Proof.
  intros [Hlen Hbtn] Hstep. destruct Hstep as [s dialog chosen Hen | s dialog
    | s i w world sig Hnth Hsig].
  - assert (Hidle : running s = []).
    { destruct (running s) eqn:Hr; [reflexivity|].
      assert (upload_btn_enabled s = false)
        by (apply Hbtn; unfold uploading; rewrite Hr; discriminate).
      congruence. }
    destruct (upload_file_cases dialog chosen s) as [[Hr Hb]|(w & Hr & Hb)];
      unfold one_upload, uploading; rewrite Hr, Hidle; simpl.
    + split; [lia|]. intros Hne. now contradiction Hne.
    + split; [lia|]. auto.
  - destruct (show_auth_dialog_keeps dialog s) as [Hr Hb].
    unfold one_upload, uploading. rewrite Hr, Hb. auto.
  - unfold one_upload, uploading. rewrite slot_keeps_running. simpl.
    rewrite (nth_error_singleton _ _ _ Hlen Hnth). simpl.
    split; [lia|]. intros Hne. now contradiction Hne.
Qed.

(** C1, as amended. [upload_file] makes no busy check and has no busy
    result: called with a token and a chosen file, it starts one more
    worker whatever is running. What keeps uploads apart is the button:
    from the moment a worker is started until its signal is handled the
    button is disabled, so in every state the window can reach at most one
    worker is running, and while one is running no click reaches
    [upload_file]. *)
Theorem at_most_one_upload_in_flight :
  (forall s, reachable s ->
     (List.length (running s) <= 1)%nat
     /\ (uploading s -> upload_btn_enabled s = false)
     /\ (forall ev s', uploading s -> step s ev s' ->
           (forall dialog chosen, ev <> ClickUpload dialog chosen)
           /\ (List.length (running s') <= 1)%nat))
  /\ (forall s dialog chosen,
        truthy (token s) = true -> chosen <> "" ->
        running (upload_file dialog chosen s)
        = (running s ++ [mk_worker chosen (token s)])%list).
Proof.
  split.
  - intros s Hreach.
    assert (Hinv : one_upload s).
    { induction Hreach as [dialog | s ev s' _ IH Hstep].
      - unfold init, one_upload, uploading.
        destruct (show_auth_dialog_keeps dialog after_setup_ui) as [-> ->].
        simpl. split; [lia|]. intros Hne. now contradiction Hne.
      - exact (step_one_upload _ _ _ IH Hstep). }
    destruct Hinv as [Hlen Hbtn].
    split; [exact Hlen|]. split; [exact Hbtn|].
    intros ev s' Hup Hstep. split.
    + intros dialog chosen ->. inversion Hstep as [? ? ? Hen | |]; subst.
      rewrite (Hbtn Hup) in Hen. discriminate.
    + apply (step_one_upload s s' ev); [split; auto | assumption].
  - intros s dialog chosen Htok Hchosen. unfold upload_file.
    rewrite Htok. simpl negb. cbv iota. rewrite Htok. simpl negb. cbv iota.
    destruct (str_truthy chosen) eqn:Hc.
    + reflexivity.
    + unfold str_truthy in Hc. destruct (String.eqb_spec chosen "");
        [contradiction | discriminate].
Qed.

End WindowProperties.

(* ================================================================= *)
(** * The properties on the sample data *)

Import Py Effects Samples.

(** Scenario D of the specification does not hold of [upload_file] itself:
    called a second time while the first upload is in flight, it starts a
    second worker. *)
Lemma upload_file_twice_starts_two_workers :
  Window.uploading uploading_pumps
  /\ Gui.running (Window.upload_file Window.Rejected "/data/valves.csv"
                                     uploading_pumps)
     = [Upload.mk_worker "/data/pumps.csv" (PStr "abc123");
        Upload.mk_worker "/data/valves.csv" (PStr "abc123")].
Proof. split; [discriminate | reflexivity]. Qed.

Lemma uploading_pumps_reachable :
  @Window.reachable opaque_repr uploading_pumps.
Proof.
  apply (Window.reach_step logged_in
           (Window.ClickUpload Window.Rejected "/data/pumps.csv")).
  - apply Window.reach_init.
  - apply Window.step_upload. reflexivity.
Defined.

Lemma at_most_one_upload_in_flight_witness :
  @Window.reachable opaque_repr uploading_pumps
  /\ (List.length (Gui.running uploading_pumps) <= 1)%nat
  /\ Gui.upload_btn_enabled uploading_pumps = false
  /\ Gui.running (Window.upload_file Window.Rejected "/data/valves.csv"
                                     logged_in)
     = [Upload.mk_worker "/data/valves.csv" (PStr "abc123")].
Proof.
  destruct (@at_most_one_upload_in_flight opaque_repr) as [Hinv Hstart].
  destruct (Hinv uploading_pumps uploading_pumps_reachable)
    as (Hlen & Hbtn & _).
  split; [exact uploading_pumps_reachable|].
  split; [exact Hlen|].
  split; [apply Hbtn; discriminate|].
  apply (Hstart logged_in Window.Rejected "/data/valves.csv");
    [reflexivity | discriminate].
Defined.

(** A 502 answer with a page that is no JSON is reported with the generic
    message, not as an API error. *)
Lemma bad_gateway_is_not_an_api_error :
  status_code bad_gateway = 502
  /\ emitted (trace (@Upload.run opaque_repr (answering bad_gateway)
                                 worker_pumps))
     = [error "Error: Expecting value: line 1 column 1 (char 0)"]
  /\ forall message,
       emitted (trace (@Upload.run opaque_repr (answering bad_gateway)
                                   worker_pumps))
       <> [error ("API Error: " ++ message)].
Proof.
  split; [reflexivity|]. split; [reflexivity|].
  intros message Heq. discriminate Heq.
Qed.

Lemma response_mapping_witness :
  emitted (trace (@Upload.run opaque_repr (answering created) worker_pumps))
  = [finished scenario_b]
  /\ emitted (trace (@Upload.run opaque_repr (answering unauthorized)
                                 worker_pumps))
     = [error "Authentication failed. Please check your credentials."]
  /\ emitted (trace (@Upload.run opaque_repr (answering bad_request)
                                 worker_pumps))
     = [error "API Error: No file provided"]
  /\ emitted (trace (@Upload.run opaque_repr
                       (failing (mk_exn ConnectTimeout "timed out"))
                       worker_pumps))
     = [error "Connection failed. Is the Django server running?"]
  /\ emitted (trace (@Upload.run opaque_repr
                       (failing (mk_exn ReadTimeout "read timed out"))
                       worker_pumps))
     = [error "Request timed out. Please try again."]
  /\ emitted (trace (@Upload.run opaque_repr
                       (failing (mk_exn (OtherException "OSError") "I/O error"))
                       worker_pumps))
     = [error "Error: I/O error"].
Proof.
  split; [|split; [|split; [|split; [|split]]]].
  - destruct (@response_mapping opaque_repr (answering created) worker_pumps
                eq_refl) as [Hr _].
    destruct (Hr created eq_refl) as (H201 & _ & _ & _).
    exact (H201 scenario_b eq_refl eq_refl).
  - destruct (@response_mapping opaque_repr (answering unauthorized)
                worker_pumps eq_refl) as [Hr _].
    destruct (Hr unauthorized eq_refl) as (_ & H401 & _ & _).
    exact (H401 eq_refl).
  - destruct (@response_mapping opaque_repr (answering bad_request)
                worker_pumps eq_refl) as [Hr _].
    destruct (Hr bad_request eq_refl) as (_ & _ & Hother & _).
    apply (Hother [("error", PStr "No file provided")]);
      [discriminate | discriminate | reflexivity].
  - destruct (@response_mapping opaque_repr
                (failing (mk_exn ConnectTimeout "timed out")) worker_pumps
                eq_refl) as [_ He].
    destruct (He _ eq_refl) as (Hc & _ & _). exact (Hc eq_refl).
  - destruct (@response_mapping opaque_repr
                (failing (mk_exn ReadTimeout "read timed out")) worker_pumps
                eq_refl) as [_ He].
    destruct (He _ eq_refl) as (_ & Ht & _). exact (Ht eq_refl eq_refl).
  - destruct (@response_mapping opaque_repr
                (failing (mk_exn (OtherException "OSError") "I/O error"))
                worker_pumps eq_refl) as [_ He].
    destruct (He _ eq_refl) as (_ & _ & Ho). exact (Ho eq_refl eq_refl).
Defined.

(** Blank fields are not missing input: the pair is sent to the server. *)
Lemma blank_credentials_are_posted :
  existsb is_post (trace (Auth.authenticate (answering unauthorized) " " "  "))
  = true
  /\ trace (Auth.authenticate (answering unauthorized) " " "  ")
     = [EvPost (Auth.login_request " " "  ");
        EvMessageBox Warning "Login Failed" "Error: {...}"].
Proof. split; reflexivity. Qed.

Lemma authenticate_missing_input_witness :
  Auth.authenticate (answering unauthorized) "" "secret"
  = ([EvMessageBox Warning "Error" "Please enter username and password"],
     Ok PNone)
  /\ hd_error (trace (Auth.authenticate (answering unauthorized) " " "  "))
     = Some (EvPost (Auth.login_request " " "  ")).
Proof.
  split.
  - apply (authenticate_missing_input (answering unauthorized) "" "secret").
    left. reflexivity.
  - apply (authenticate_missing_input (answering unauthorized) " " "  ");
      discriminate.
Defined.

(** A file that cannot be opened is reported exactly as any unexpected
    exception is: the same exception raised inside [requests.post] gives
    the same signal, so nothing tells the two apart. *)
Lemma missing_file_is_reported_as_unknown :
  fs_open without_file (Upload.file_path worker_pumps) = Raise file_not_found
  /\ emitted (trace (@Upload.run opaque_repr without_file worker_pumps))
     = [error "Error: [Errno 2] No such file or directory: '/data/pumps.csv'"]
  /\ emitted (trace (@Upload.run opaque_repr (failing file_not_found)
                                 worker_pumps))
     = emitted (trace (@Upload.run opaque_repr without_file worker_pumps)).
Proof. repeat split. Qed.

Lemma open_failure_is_generic_witness :
  @Upload.run opaque_repr without_file worker_pumps
  = ([EvOpen "/data/pumps.csv" "rb";
      EvEmit (error
        "Error: [Errno 2] No such file or directory: '/data/pumps.csv'")],
     Ok tt)
  /\ existsb is_post (trace (@Upload.run opaque_repr without_file worker_pumps))
     = false.
Proof.
  destruct (@open_failure_is_generic opaque_repr without_file worker_pumps
              file_not_found "FileNotFoundError" eq_refl eq_refl)
    as (Hrun & Hpost & _).
  split; [exact Hrun | exact Hpost].
Defined.

Lemma undecodable_error_body_is_generic_witness :
  emitted (trace (@Upload.run opaque_repr (answering bad_gateway) worker_pumps))
  = [error "Error: Expecting value: line 1 column 1 (char 0)"].
Proof.
  apply (@undecodable_error_body_is_generic opaque_repr
           (answering bad_gateway) worker_pumps bad_gateway
           "Expecting value: line 1 column 1 (char 0)");
    [reflexivity | reflexivity | discriminate | discriminate | reflexivity].
Defined.

(** An average that is present but is no finite number is not shown with
    two decimals: on [null] the handler raises before it writes the label,
    and an infinity is shown as [inf]. *)
Lemma average_without_two_decimals :
  snd (@Window.on_upload_success opaque_repr null_average logged_in)
  = Raise (mk_exn (OtherException "TypeError")
             "unsupported format string passed to NoneType.__format__")
  /\ Gui.flowrate_label
       (fst (@Window.on_upload_success opaque_repr null_average logged_in))
     = Gui.flowrate_label logged_in
  /\ Gui.flowrate_label
       (fst (@Window.on_upload_success opaque_repr infinite_average logged_in))
     = "inf m³/h".
Proof. repeat split. Qed.

(** Scenario B: the total reads 3, the flow rate 12.50 m³/h, and the chart
    has the two bars of the distribution. *)
Lemma on_upload_success_publishes_witness :
  let s' := fst (@Window.on_upload_success opaque_repr scenario_b logged_in) in
  Gui.total_label s' = "3"
  /\ Gui.flowrate_label s' = "12.50 m³/h"
  /\ Gui.pressure_label s' = "1.20 bar"
  /\ Gui.temperature_label s' = "25.00 °C"
  /\ Canvas.bars (Gui.canvas s')
     = [(PStr "Pump", PInt 2, "#63b3ed"); (PStr "Valve", PInt 1, "#68d391")].
Proof.
  destruct (@on_upload_success_publishes opaque_repr scenario_b
              [("total_count", PInt 3);
               ("avg_flowrate", PFloat (FFinite false 25 (-1)));
               ("avg_pressure", PFloat one_point_two);
               ("avg_temperature", PFloat (FFinite false 25 0));
               ("type_distribution", PList pumps_and_valves)]
              logged_in 3 (FFinite false 25 (-1)) one_point_two
              (FFinite false 25 0)
              eq_refl eq_refl eq_refl eq_refl eq_refl)
    as (Htotal & Hflow & Hpress & Htemp & _ & _ & _ & Hcanvas & _).
  cbv zeta. rewrite Htotal, Hflow, Hpress, Htemp, Hcanvas.
  repeat split.
Defined.

Lemma plot_draws_one_bar_per_entry_witness :
  let result :=
    @Canvas.plot_type_distribution opaque_repr [] (PList pumps_and_valves) in
  snd result = Ok tt
  /\ List.length (Canvas.bars (fst result)) = 2%nat
  /\ nth_error (Canvas.bars (fst result)) 1
     = Some (PStr "Valve", PInt 1, "#68d391")
  /\ nth_error (Canvas.value_labels (fst result)) 1 = Some ("1", 1%nat).
Proof.
  assert (Hne : pumps_and_valves <> []) by discriminate.
  destruct (@plot_draws_one_bar_per_entry opaque_repr [] pumps_and_valves
              [(PStr "Pump", PInt 2); (PStr "Valve", PInt 1)] Hne eq_refl)
    as (Hok & Hbars & _ & Hcell & Hint).
  split; [exact Hok|]. split; [exact Hbars|].
  split.
  - exact (proj1 (Hcell 1%nat (PStr "Valve") (PInt 1) eq_refl)).
  - exact (Hint 1%nat (PStr "Valve") 1 eq_refl).
Defined.

(* ================================================================= *)
(** * Further properties of [AuthDialog] *)

Section AuthDialogProperties.
Import Py Effects Auth.

(** [authenticate] on two fields that are not empty, by what the server
    does. *)
Lemma authenticate_sends (w : world) (username password : string) :
  username <> "" -> password <> "" ->
  authenticate w username password
  = let rq := login_request username password in
    match http_post w rq with
    | Raise e =>
        ([EvPost rq;
          EvMessageBox Critical "Connection Error"
                       ("Could not connect to server: " ++ exn_str e)],
         Ok PNone)
    | Ok r =>
        if status_code r =? 200 then
          match response_json r with
          | Raise e =>
              ([EvPost rq;
                EvMessageBox Critical "Connection Error"
                             ("Could not connect to server: " ++ exn_str e)],
               Ok PNone)
          | Ok data =>
              match get data "token" PNone with
              | Raise e =>
                  ([EvPost rq;
                    EvMessageBox Critical "Connection Error"
                      ("Could not connect to server: " ++ exn_str e)],
                   Ok PNone)
              | Ok tok => ([EvPost rq], Ok tok)
              end
          end
        else if status_code r =? 400 then
          ([EvPost rq; EvMessageBox Warning "Login Failed" "Invalid credentials"],
           Ok PNone)
        else
          ([EvPost rq;
            EvMessageBox Warning "Login Failed" ("Error: " ++ text r)],
           Ok PNone)
    end.
Proof.
  intros Hu Hp. unfold authenticate.
  destruct (str_truthy username) eqn:Eu;
    [|apply str_truthy_empty in Eu; contradiction].
  destruct (str_truthy password) eqn:Ep;
    [|apply str_truthy_empty in Ep; contradiction].
  simpl negb. simpl orb. cbv iota zeta.
  unfold post, bind, try_except, lift, warning, critical, emit_event, ret.
  destruct (http_post w (login_request username password)) as [r|e];
    [|reflexivity].
  destruct (status_code r =? 200).
  - destruct (response_json r) as [data|e]; [|reflexivity].
    destruct (get data "token" PNone); reflexivity.
  - destruct (status_code r =? 400); reflexivity.
Qed.

(** [authenticate] on an empty field. *)
Lemma authenticate_empty (w : world) (username password : string) :
  username = "" \/ password = "" ->
  authenticate w username password
  = ([EvMessageBox Warning "Error" "Please enter username and password"],
     Ok PNone).
Proof.
  intros Hempty. unfold authenticate.
  assert (Htest : negb (str_truthy username) || negb (str_truthy password)
                  = true).
  { destruct Hempty as [-> | ->]; [reflexivity|].
    rewrite orb_true_iff. right. reflexivity. }
  rewrite Htest. reflexivity.
Qed.

(** [authenticate] never lets an exception out, and what it returns is
    [None] unless the server answered 200 with a JSON object: then it is
    the object's [token] member. *)
Theorem authenticate_token_origin (w : world) (username password : string) :
  exists v,
    snd (authenticate w username password) = Ok v
    /\ (v <> PNone ->
        username <> "" /\ password <> ""
        /\ exists r d,
             http_post w (login_request username password) = Ok r
             /\ status_code r = 200
             /\ json r = inr (PDict d)
             /\ lookup "token" d = Some v).
Proof.
  destruct (String.eqb_spec username "") as [Hu|Hu].
  { exists PNone. split; [|congruence].
    rewrite (authenticate_empty w username password); auto. }
  destruct (String.eqb_spec password "") as [Hp|Hp].
  { exists PNone. split; [|congruence].
    rewrite (authenticate_empty w username password); auto. }
  rewrite (authenticate_sends w _ _ Hu Hp). cbv zeta.
  destruct (http_post w (login_request username password)) as [r|e];
    [|exists PNone; split; [reflexivity|congruence]].
  destruct (status_code r =? 200) eqn:H200.
  - unfold response_json. destruct (json r) as [msg|data] eqn:Hjson;
      [exists PNone; split; [reflexivity|congruence]|].
    destruct data as [| | | | | |d]; simpl;
      try (exists PNone; split; [reflexivity|congruence]).
    exists (dict_get d "token" PNone). split; [reflexivity|].
    intros Hv. repeat split; auto.
    exists r, d. apply Z.eqb_eq in H200. repeat split; auto.
    unfold dict_get in *. destruct (lookup "token" d); congruence.
  - destruct (status_code r =? 400);
      exists PNone; (split; [reflexivity|congruence]).
Qed.

(** On fields that are not empty [authenticate] sends exactly one request,
    the login request with the two texts as typed, and shows at most one
    message box. *)
Theorem authenticate_posts_once (w : world) (username password : string) :
  username <> "" -> password <> "" ->
  filter is_post (trace (authenticate w username password))
  = [EvPost (login_request username password)]
  /\ (List.length (filter is_box (trace (authenticate w username password)))
      <= 1)%nat.
Proof.
  intros Hu Hp. rewrite (authenticate_sends w _ _ Hu Hp). cbv zeta.
  destruct (http_post w _) as [r|e]; [|simpl; auto].
  destruct (status_code r =? 200).
  - destruct (response_json r) as [data|e]; [|simpl; auto].
    destruct (get data "token" PNone); simpl; auto.
  - destruct (status_code r =? 400); simpl; auto.
Qed.

(** A 200 answer is not always a login. When its body is a JSON object
    without a [token] member, [authenticate] returns [None] and tells the
    user nothing; when its body is no JSON at all, the decoding error is
    shown as a failure to connect. *)
Theorem authenticate_odd_200 (w : world) (username password : string)
    (r : response) :
  username <> "" -> password <> "" ->
  http_post w (login_request username password) = Ok r ->
  status_code r = 200 ->
  (forall d, json r = inr (PDict d) -> lookup "token" d = None ->
     authenticate w username password
     = ([EvPost (login_request username password)], Ok PNone))
  /\ (forall detail, json r = inl detail ->
        authenticate w username password
        = ([EvPost (login_request username password);
            EvMessageBox Critical "Connection Error"
                         ("Could not connect to server: " ++ detail)],
           Ok PNone)).
Proof.
  intros Hu Hp Hpost H200.
  rewrite (authenticate_sends w _ _ Hu Hp). cbv zeta.
  rewrite Hpost, H200. unfold response_json. simpl. split.
  - intros d -> Hd. simpl. unfold dict_get. now rewrite Hd.
  - intros detail ->. reflexivity.
Qed.

(** [handle_login] accepts the dialog only with a token that is true, so
    the branch of [show_auth_dialog] that warns about missing credentials
    is never taken after it: the window stores the token and reports the
    login in the status bar. *)
Theorem handle_login_accepts_true_token
    (w : world) (username password : string) (tok : pyval)
    (s : Gui.MainWindow) :
  snd (handle_login w username password) = Ok (Some tok) ->
  truthy tok = true
  /\ Window.show_auth_dialog (Window.Accepted tok) s
     = Gui.set_status_message "Authenticated successfully"
         (Gui.set_token tok s).
Proof.
  unfold handle_login, bind.
  destruct (authenticate w username password) as [t [v|e]]; simpl;
    [|discriminate].
  destruct (truthy v) eqn:Hv; simpl; [|discriminate].
  intros [= <-]. split; [exact Hv|].
  unfold Window.show_auth_dialog. simpl. now rewrite Hv.
Qed.

End AuthDialogProperties.

(* ================================================================= *)
(** * Further properties of [UploadWorker.run] *)

Section UploadWorkerProperties.
Import Py Effects Upload.
Context `{Repr}.

(** Once the file is open, [run] sends the upload request, closes the file
    and only then emits its signal: the trace is these four events, whether
    [requests.post] returned or raised. *)
Theorem run_closes_file_before_signal (w : world) (self : UploadWorker) :
  fs_open w (file_path self) = Ok tt ->
  exists sig,
    trace (run w self)
    = [EvOpen (file_path self) "rb"; EvPost (upload_request self);
       EvClose (file_path self); EvEmit sig].
Proof.
  intros Hopen.
  destruct (http_post w (upload_request self)) as [r|e] eqn:Hpost.
  - rewrite (run_post_returns _ _ _ Hopen Hpost).
    destruct (on_response_cases r) as [[sig ->]|[e ->]]; simpl.
    + eauto.
    + destruct (run_except_emits e) as [msg ->]. simpl. eauto.
  - rewrite (run_post_raises _ _ _ Hopen Hpost).
    destruct (run_except_emits e) as [msg ->]. simpl. eauto.
Qed.

(** [finished] is emitted only for a 201 answer whose body is a JSON
    object, and carries that object: no other answer, and no exception, is
    ever reported as a success. *)
Theorem finished_only_on_201 (w : world) (self : UploadWorker) (d : pydict) :
  In (finished d) (emitted (trace (run w self))) ->
  fs_open w (file_path self) = Ok tt
  /\ exists r,
       http_post w (upload_request self) = Ok r
       /\ status_code r = 201
       /\ json r = inr (PDict d).
Proof.
  assert (Hex : forall e, ~ In (finished d)
                            (emitted (trace (run_except e)))).
  { intros e. destruct (run_except_emits e) as [msg ->]. simpl.
    intros [Heq|[]]. discriminate. }
  destruct (fs_open w (file_path self)) as [[]|e] eqn:Hopen.
  - destruct (http_post w (upload_request self)) as [r|e] eqn:Hpost.
    + rewrite (run_post_returns _ _ _ Hopen Hpost). simpl.
      unfold on_response, response_json, finished_emit, error_emit,
        emit_event, get, lift, raise, bind, try_except.
      destruct (status_code r =? 201) eqn:H201.
      * apply Z.eqb_eq in H201.
        destruct (json r) as [msg|v] eqn:Hjson.
        -- intros Hin. exfalso.
           apply (Hex (mk_exn (OtherException "JSONDecodeError") msg)).
           destruct (run_except _) as [t' r']. exact Hin.
        -- destruct v as [| | | | | |d'];
             try (intros Hin; exfalso;
                  match type of Hin with
                  | context [run_except ?e] =>
                      apply (Hex e); destruct (run_except e); exact Hin
                  end).
           simpl. intros [[= ->]|[]]. split; [reflexivity|].
           exists r. auto.
      * destruct (status_code r =? 401).
        -- simpl. intros [Heq|[]]. discriminate.
        -- destruct (json r) as [msg|v].
           ++ intros Hin. exfalso.
              apply (Hex (mk_exn (OtherException "JSONDecodeError") msg)).
              destruct (run_except _) as [t' r']. exact Hin.
           ++ destruct v as [| | | | | |d'];
                try (intros Hin; exfalso;
                     match type of Hin with
                     | context [run_except ?e] =>
                         apply (Hex e); destruct (run_except e); exact Hin
                     end).
              simpl. intros [Heq|[]]. discriminate.
    + rewrite (run_post_raises _ _ _ Hopen Hpost). simpl.
      intros Hin. exfalso. exact (Hex e Hin).
  - rewrite (run_open_raises _ _ _ Hopen). simpl.
    intros Hin. exfalso. exact (Hex e Hin).
Qed.

(** An error answer whose body is JSON but no object (a list, a string, a
    number, [null]) has no [get]: the attribute error is what the user is
    told, under the generic ["Error: "]. *)
Theorem error_body_not_an_object
    (w : world) (self : UploadWorker) (r : response) (v : pyval) :
  fs_open w (file_path self) = Ok tt ->
  http_post w (upload_request self) = Ok r ->
  status_code r <> 201 ->
  status_code r <> 401 ->
  json r = inr v ->
  isinstance_dict v = false ->
  emitted (trace (run w self))
  = [error ("Error: '" ++ type_name v ++ "' object has no attribute 'get'")].
Proof.
  intros Hopen Hpost H201 H401 Hjson Hv.
  rewrite (run_post_returns _ _ _ Hopen Hpost).
  unfold on_response, response_json, lift, bind, try_except.
  apply Z.eqb_neq in H201, H401. rewrite H201, H401, Hjson.
  destruct v; try discriminate; reflexivity.
Qed.

End UploadWorkerProperties.

(* ================================================================= *)
(** * Properties of [basename] *)

Section BasenameProperties.
Import Py Effects.
#[local] Open Scope list_scope.

Lemma split_not_nil (sep : ascii) (s : string) : split sep s <> [].
Proof.
  destruct s as [|c s]; simpl; [discriminate|].
  destruct (c =? sep)%char; [discriminate|].
  destruct (split sep s); discriminate.
Qed.

Lemma last_cons_not_nil {A} (x : A) (l : list A) (d : A) :
  l <> [] -> last (x :: l) d = last l d.
Proof. destruct l; [contradiction | reflexivity]. Qed.

Lemma last_app_not_nil {A} (l l' : list A) (d : A) :
  l' <> [] -> last (l ++ l') d = last l' d.
Proof.
  intros Hne. induction l as [|x l IH]; [reflexivity|].
  simpl app. rewrite last_cons_not_nil; [exact IH|].
  destruct l; simpl; [exact Hne | discriminate].
Qed.

Lemma last_in {A} (l : list A) (d : A) : l <> [] -> In (last l d) l.
Proof.
  induction l as [|x l IH]; [contradiction|]. intros _.
  destruct l as [|y l]; [left; reflexivity|].
  right. apply IH. discriminate.
Qed.

(** No piece of a split holds the separator, and a character that is not
    in the string is in none of its pieces. *)
Lemma split_pieces (sep c : ascii) (s : string) :
  (c = sep \/ contains c s = false) ->
  Forall (fun piece => contains c piece = false) (split sep s).
Proof.
  induction s as [|a s IH]; intros Hc.
  - repeat constructor.
  - simpl. destruct (Ascii.eqb_spec a sep) as [->|Hne].
    + constructor; [reflexivity|]. apply IH.
      destruct Hc as [Hc|Hc]; [auto|]. simpl in Hc.
      apply orb_false_iff in Hc. tauto.
    + assert (Hrest : c = sep \/ contains c s = false).
      { destruct Hc as [Hc|Hc]; [auto|]. simpl in Hc.
        apply orb_false_iff in Hc. tauto. }
      assert (Ha : (a =? c)%char = false).
      { destruct Hc as [->|Hc]; [now apply Ascii.eqb_neq|].
        simpl in Hc. apply orb_false_iff in Hc. tauto. }
      specialize (IH Hrest).
      destruct (split sep s) as [|h t] eqn:Hs;
        [now destruct (split_not_nil sep s)|].
      inversion IH; subst. constructor; [|assumption].
      simpl. now rewrite Ha.
Qed.

Lemma split_without_separator (sep : ascii) (s : string) :
  contains sep s = false -> split sep s = [s].
Proof.
  induction s as [|a s IH]; [reflexivity|]. simpl. intros Hc.
  apply orb_false_iff in Hc. destruct Hc as [Ha Hs].
  rewrite Ha, (IH Hs). reflexivity.
Qed.

(** Splitting after a separator: the pieces of what follows come last. *)
Lemma split_app_separator (sep : ascii) (a b : string) :
  exists l, l <> [] /\ split sep (a ++ String sep b) = l ++ split sep b.
Proof.
  induction a as [|c a (l & Hl & IH)]; simpl.
  - rewrite Ascii.eqb_refl. exists [EmptyString]. split; [discriminate|].
    reflexivity.
  - destruct (c =? sep)%char.
    + exists (EmptyString :: l). split; [discriminate|]. now rewrite IH.
    + rewrite IH. destruct l as [|h t]; [contradiction|].
      exists (String c h :: t). split; [discriminate|]. reflexivity.
Qed.

Lemma split_app_length (sep : ascii) (a b : string) :
  contains sep b = false ->
  List.length (split sep (a ++ b)) = List.length (split sep a).
Proof.
  intros Hb. induction a as [|c a IH]; simpl.
  - now rewrite (split_without_separator sep b Hb).
  - destruct (c =? sep)%char; simpl; [now rewrite IH|].
    destruct (split sep (a ++ b)) eqn:E1;
      [now destruct (split_not_nil sep (a ++ b))|].
    destruct (split sep a) eqn:E2;
      [now destruct (split_not_nil sep a)|].
    simpl in *. exact IH.
Qed.

(** Splitting before a suffix without separator: the suffix goes to the
    last piece. *)
Lemma last_split_app (sep : ascii) (a b : string) :
  contains sep b = false ->
  last (split sep (a ++ b)) "" = (last (split sep a) "" ++ b)%string.
Proof.
  intros Hb. induction a as [|c a IH]; simpl.
  - now rewrite (split_without_separator sep b Hb).
  - destruct (c =? sep)%char.
    + rewrite !last_cons_not_nil by apply split_not_nil. exact IH.
    + pose proof (split_app_length sep a b Hb) as Hlen.
      destruct (split sep (a ++ b)) as [|h t] eqn:Hab;
        [now destruct (split_not_nil sep (a ++ b))|].
      destruct (split sep a) as [|h' t'] eqn:Ha;
        [now destruct (split_not_nil sep a)|].
      destruct t as [|x t]; destruct t' as [|x' t']; try discriminate.
      * simpl in *. now rewrite IH.
      * rewrite !last_cons_not_nil by discriminate.
        rewrite !last_cons_not_nil in IH by discriminate. exact IH.
Qed.

(** The name [basename] returns holds neither a slash nor a backslash. *)
Theorem basename_has_no_separator (path : string) :
  contains "/" (basename path) = false
  /\ contains "\" (basename path) = false.
Proof.
  unfold basename.
  set (q := last (split "/" path) "").
  assert (Hq : contains "/" q = false).
  { pose proof (split_pieces "/" "/" path (or_introl eq_refl)) as Hall.
    rewrite Forall_forall in Hall. apply Hall.
    apply last_in, split_not_nil. }
  split.
  - pose proof (split_pieces "\" "/" q (or_intror Hq)) as Hall.
    rewrite Forall_forall in Hall. apply Hall.
    apply last_in, split_not_nil.
  - pose proof (split_pieces "\" "\" q (or_introl eq_refl)) as Hall.
    rewrite Forall_forall in Hall. apply Hall.
    apply last_in, split_not_nil.
Qed.

(** [basename] undoes the joining of a directory and a file name, with
    either separator: for a name that holds no separator, the base name of
    [dir/name] and of [dir\name] is [name], whatever [dir] is. *)
Theorem basename_of_joined (dir name : string) (sep : ascii) :
  sep = "/"%char \/ sep = "\"%char ->
  contains "/" name = false ->
  contains "\" name = false ->
  basename (dir ++ String sep name) = name.
Proof.
  intros Hsep Hslash Hback. unfold basename.
  destruct Hsep as [-> | ->].
  - destruct (split_app_separator "/" dir name) as (l & Hl & ->).
    rewrite last_app_not_nil by apply split_not_nil.
    rewrite (split_without_separator "/" name Hslash). simpl last.
    now rewrite (split_without_separator "\" name Hback).
  - assert (Htail : contains "/" (String "\" name) = false)
      by (simpl; exact Hslash).
    rewrite (last_split_app "/" dir (String "\" name) Htail).
    destruct (split_app_separator "\" (last (split "/" dir) "") name)
      as (l & Hl & ->).
    rewrite last_app_not_nil by apply split_not_nil.
    now rewrite (split_without_separator "\" name Hback).
Qed.

End BasenameProperties.

(* ================================================================= *)
(** * Further properties of [MatplotlibCanvas] *)

Section CanvasOutcomeProperties.
Import Py Effects Canvas.
Context `{Repr}.
#[local] Open Scope nat_scope.
#[local] Open Scope list_scope.

Lemma getitem_ok (item : pyval) (k : string) (v : pyval) :
  getitem item k = Ok v -> exists d, item = PDict d /\ lookup k d = Some v.
Proof.
  destruct item; simpl; try discriminate.
  destruct (lookup k d) eqn:Hk; [|discriminate].
  intros [= <-]. eauto.
Qed.

(** Both comprehensions succeed only on a list of entries. *)
Lemma columns_entries (items : list pyval) (ts cs : list pyval) :
  column "type" items = Ok ts -> column "count" items = Ok cs ->
  exists es, entries items = Some es.
Proof.
  revert ts cs. induction items as [|item rest IH]; intros ts cs Ht Hc.
  - exists []. reflexivity.
  - simpl in Ht, Hc.
    destruct (getitem item "type") as [t|] eqn:Gt; [|discriminate].
    destruct (getitem item "count") as [c|] eqn:Gc; [|discriminate].
    destruct (column "type" rest) as [ts'|]; [|discriminate].
    destruct (column "count" rest) as [cs'|]; [|discriminate].
    destruct (IH ts' cs' eq_refl eq_refl) as [es Hes].
    destruct (getitem_ok _ _ _ Gt) as (d & -> & Lt).
    destruct (getitem_ok _ _ _ Gc) as (d' & [= <-] & Lc).
    simpl. rewrite Lt, Lc, Hes. eauto.
Qed.

(** [plot_type_distribution] on a value that is true, by what the two
    comprehensions do. *)
Lemma plot_not_well_formed (self : canvas) (distribution : pyval) :
  truthy distribution = true ->
  well_formed distribution = false ->
  exists e, plot_type_distribution self distribution = ([], Raise e).
Proof.
  intros Htrue Hwf. unfold plot_type_distribution. rewrite Htrue.
  cbn [negb]. cbv zeta.
  destruct distribution as [| b | z | f | s | items | d];
    try (eexists; reflexivity).
  - destruct s as [|c s]; [discriminate Htrue|]. simpl. eexists; reflexivity.
  - simpl in Hwf. cbn [iterate].
    destruct (column "type" items) as [ts|e] eqn:Ht;
      [|eexists; reflexivity].
    destruct (column "count" items) as [cs|e] eqn:Hc;
      [|eexists; reflexivity].
    destruct (columns_entries _ _ _ Ht Hc) as [es Hes].
    rewrite Hes in Hwf. discriminate.
  - destruct d as [|[k v] d]; [discriminate Htrue|]. simpl. eexists; reflexivity.
Qed.


Lemma colors_NoDup : NoDup colors.
Proof.
  unfold colors.
  repeat (constructor;
          [simpl; intros Hin;
           repeat (destruct Hin as [Hin|Hin]; [discriminate|]);
           exact Hin|]).
  constructor.
Qed.

(** The palette has period seven and no shorter one: two bars have the
    same colour exactly when their indices differ by a multiple of seven.
    In particular neighbouring bars never share a colour. *)
Theorem bar_colors_period (n i j : nat) (c c' : string) :
  nth_error (bar_colors n) i = Some c ->
  nth_error (bar_colors n) j = Some c' ->
  (c = c' <-> i mod 7 = j mod 7).
Proof.
  intros Hi Hj.
  assert (Hlt : forall k x, nth_error (bar_colors n) k = Some x -> k < n).
  { intros k x Hk. rewrite <- (bar_colors_length n).
    apply nth_error_Some. rewrite Hk. discriminate. }
  rewrite (bar_colors_nth n i (Hlt _ _ Hi)) in Hi.
  rewrite (bar_colors_nth n j (Hlt _ _ Hj)) in Hj.
  assert (Hc : c = nth (i mod 7) colors "") by congruence.
  assert (Hc' : c' = nth (j mod 7) colors "") by congruence.
  rewrite Hc, Hc'. split.
  - intros Heq.
    apply (proj1 (NoDup_nth colors "") colors_NoDup); auto;
      change (List.length colors) with 7; apply Nat.mod_upper_bound;
      discriminate.
  - intros Heq. now rewrite Heq.
Qed.

End CanvasOutcomeProperties.

(* ================================================================= *)
(** * Further properties of [MainWindow] *)

Section MainWindowProperties.
Import Py Effects Upload Gui Window Spec.
Context `{Repr}.

Lemma keeps_modify {B} (field : MainWindow -> B) (f : MainWindow -> MainWindow) :
  (forall s, field (f s) = field s) -> keeps field (modify f).
Proof. intros Hf s. apply Hf. Qed.

Lemma keeps_glift {A B} (field : MainWindow -> B) (r : res A) :
  keeps field (glift r).
Proof. intros s. reflexivity. Qed.

Lemma keeps_gbind {A B C} (field : MainWindow -> C) (m : gui A)
    (k : A -> gui B) :
  keeps field m -> (forall a, keeps field (k a)) -> keeps field (gbind m k).
Proof.
  intros Hm Hk s. unfold gbind. specialize (Hm s).
  destruct (m s) as [s1 [a|e]]; simpl in *.
  - now rewrite Hk.
  - exact Hm.
Qed.

Lemma keeps_plot {B} (field : MainWindow -> B) (distribution : pyval) :
  (forall c s, field (set_canvas c s) = field s) ->
  keeps field (plot distribution).
Proof.
  intros Hf s. unfold plot.
  destruct (Canvas.plot_type_distribution _ _). simpl. apply Hf.
Qed.

Ltac keeps_steps :=
  repeat first
    [ apply keeps_gbind; [|intros ?]
    | apply keeps_modify; intros ?; reflexivity
    | apply keeps_glift
    | apply keeps_plot; intros ? ?; reflexivity ].

(** Whichever signal arrives, and wherever the handler stops, the button
    is enabled again and has its idle text. *)
Lemma slot_enables_button (sig : signal) (s : MainWindow) :
  upload_btn_enabled (fst (slot sig s)) = true
  /\ upload_btn_text (fst (slot sig s)) = IDLE_TEXT.
Proof.
  assert (Hstart : forall (rest : gui unit),
             keeps upload_btn_enabled rest -> keeps upload_btn_text rest ->
             let m := gbind (modify (set_upload_btn_enabled true))
                        (fun _ => gbind (modify (set_upload_btn_text IDLE_TEXT))
                                    (fun _ => rest)) in
             upload_btn_enabled (fst (m s)) = true
             /\ upload_btn_text (fst (m s)) = IDLE_TEXT).
  { intros rest Hen Htxt. cbv zeta. unfold gbind, modify. simpl.
    rewrite Hen, Htxt. split; reflexivity. }
  destruct sig as [d|msg]; unfold slot, on_upload_success, on_upload_error;
    apply Hstart; keeps_steps.
Qed.

Lemma show_auth_dialog_frame (dialog : dialog_result) (s : MainWindow) :
  let s' := show_auth_dialog dialog s in
  running s' = running s /\ worker s' = worker s
  /\ upload_btn_enabled s' = upload_btn_enabled s
  /\ upload_btn_text s' = upload_btn_text s
  /\ total_label s' = total_label s /\ flowrate_label s' = flowrate_label s
  /\ pressure_label s' = pressure_label s
  /\ temperature_label s' = temperature_label s
  /\ canvas s' = canvas s.
Proof.
  destruct dialog as [tok|]; simpl; [|repeat split].
  destruct (truthy tok); repeat split.
Qed.

(** [upload_file], by whether it starts a worker. *)
Lemma upload_file_outcome (dialog : dialog_result) (chosen : string)
    (s : MainWindow) :
  let s0 := if truthy (token s) then s else show_auth_dialog dialog s in
  (truthy (token s0) = true /\ chosen <> ""
   /\ upload_file dialog chosen s
      = set_running (running s0 ++ [mk_worker chosen (token s0)])%list
          (set_worker (Some (mk_worker chosen (token s0)))
             (set_status_message "Uploading file to API..."
                (set_upload_btn_text "⏳ Uploading..."
                   (set_upload_btn_enabled false
                      (set_file_label_style "color: #68d391; font-size: 11px;"
                         (set_file_label_text
                            ("Selected: " ++ basename chosen) s0)))))))
  \/ ((truthy (token s0) = false \/ chosen = "")
      /\ upload_file dialog chosen s = s0).
Proof.
  cbv zeta. unfold upload_file.
  destruct (truthy (token s)) eqn:Htok; cbn [negb]; cbv iota zeta.
  - rewrite Htok. cbn [negb]. cbv iota.
    destruct (String.eqb_spec chosen "") as [->|Hc].
    + right. auto.
    + left. assert (Ht : str_truthy chosen = true)
        by (unfold str_truthy; destruct (String.eqb_spec chosen "");
            [contradiction|reflexivity]).
      rewrite Ht. cbn [negb]. cbv iota. auto.
  - destruct (truthy (token (show_auth_dialog dialog s))) eqn:Htok';
      cbn [negb]; cbv iota; [|right; auto].
    destruct (String.eqb_spec chosen "") as [->|Hc].
    + right. auto.
    + left. assert (Ht : str_truthy chosen = true)
        by (unfold str_truthy; destruct (String.eqb_spec chosen "");
            [contradiction|reflexivity]).
      rewrite Ht. cbn [negb]. cbv iota. auto.
Qed.

Lemma step_idle_or_uploading (s s' : MainWindow) (ev : ui_event) :
  idle_or_uploading s -> step s ev s' -> idle_or_uploading s'.
Proof.
  intros Hinv Hstep.
  destruct Hstep as [s dialog chosen Hen | s dialog
    | s i w world sig Hnth Hsig].
  - destruct Hinv as [(Hr & _ & Htxt)|(w & _ & _ & Hdis & _)];
      [|congruence].
    pose proof (show_auth_dialog_frame dialog s) as Hframe. cbv zeta in Hframe.
    destruct Hframe as (Fr & Fw & Fe & Ft & _).
    assert (Hs0 : let s0 := if truthy (token s) then s
                            else show_auth_dialog dialog s in
                  running s0 = [] /\ upload_btn_enabled s0 = true
                  /\ upload_btn_text s0 = IDLE_TEXT).
    { cbv zeta. destruct (truthy (token s)); [auto|].
      rewrite Fr, Fe, Ft. auto. }
    cbv zeta in Hs0. destruct Hs0 as (Hr0 & He0 & Ht0).
    destruct (upload_file_outcome dialog chosen s)
      as [(Htok & Hc & ->)|(_ & ->)].
    + right. eexists. simpl. rewrite Hr0. repeat split; auto.
    + left. auto.
  - pose proof (show_auth_dialog_frame dialog s) as Hframe. cbv zeta in Hframe.
    destruct Hframe as (Fr & Fw & Fe & Ft & _).
    unfold idle_or_uploading. rewrite Fr, Fw, Fe, Ft. exact Hinv.
  - left. destruct (slot_enables_button sig
                      (set_running (remove_nth i (running s)) s)) as [-> ->].
    rewrite slot_keeps_running. simpl.
    split; [|auto].
    destruct Hinv as [(Hr & _)|(w' & Hr & _)]; rewrite Hr in *.
    + destruct i; discriminate.
    + destruct i as [|i]; [reflexivity|]. destruct i; discriminate.
Qed.

Lemma reachable_idle_or_uploading (s : MainWindow) :
  reachable s -> idle_or_uploading s.
Proof.
  induction 1 as [dialog | s ev s' _ IH Hstep].
  - left. unfold init.
    pose proof (show_auth_dialog_frame dialog after_setup_ui) as Hframe.
    cbv zeta in Hframe. destruct Hframe as (-> & _ & -> & -> & _).
    repeat split.
  - exact (step_idle_or_uploading _ _ _ IH Hstep).
Qed.

(** In every state the window reaches, the upload button tells whether an
    upload is in flight: it is disabled, with the text of an upload in
    progress, exactly while a worker is running, and enabled with its idle
    text otherwise. The running worker is the one the window holds, and it
    was started with a token that is true and a path that is not empty. *)
Theorem button_tracks_upload (s : MainWindow) :
  reachable s ->
  (uploading s <-> upload_btn_enabled s = false)
  /\ (uploading s <-> upload_btn_text s = "⏳ Uploading...")
  /\ (~ uploading s <-> upload_btn_text s = IDLE_TEXT)
  /\ (forall w, In w (running s) ->
        worker s = Some w
        /\ truthy (Upload.token w) = true
        /\ file_path w <> "").
Proof.
  intros Hreach. unfold uploading.
  destruct (reachable_idle_or_uploading s Hreach)
    as [(Hr & He & Ht)|(w & Hr & Hw & He & Ht & Htok & Hpath)];
    rewrite Hr, He, Ht; (split; [|split; [|split]]).
  - split; [intros Hne; now contradiction Hne | discriminate].
  - split; [intros Hne; now contradiction Hne | unfold IDLE_TEXT; discriminate].
  - split; [reflexivity | intros _ Hne; now contradiction Hne].
  - intros w [].
  - split; [reflexivity | discriminate].
  - split; [reflexivity | discriminate].
  - split; [intros Hn; exfalso; apply Hn; discriminate
           | unfold IDLE_TEXT; discriminate].
  - intros w' [<-|[]]. auto.
Qed.



Lemma upload_file_frame (dialog : dialog_result) (chosen : string)
    (s : MainWindow) :
  let s' := upload_file dialog chosen s in
  total_label s' = total_label s /\ flowrate_label s' = flowrate_label s
  /\ pressure_label s' = pressure_label s
  /\ temperature_label s' = temperature_label s
  /\ canvas s' = canvas s.
Proof.
  cbv zeta.
  pose proof (show_auth_dialog_frame dialog s) as Hframe. cbv zeta in Hframe.
  destruct Hframe as (_ & _ & _ & _ & F1 & F2 & F3 & F4 & F5).
  assert (Hs0 : let s0 := if truthy (token s) then s
                          else show_auth_dialog dialog s in
                total_label s0 = total_label s
                /\ flowrate_label s0 = flowrate_label s
                /\ pressure_label s0 = pressure_label s
                /\ temperature_label s0 = temperature_label s
                /\ canvas s0 = canvas s).
  { cbv zeta. destruct (truthy (token s)); auto. }
  cbv zeta in Hs0.
  destruct (upload_file_outcome dialog chosen s) as [(_ & _ & ->)|(_ & ->)];
    [simpl|]; exact Hs0.
Qed.

(** What the window shows of the last upload outlives everything but the
    next success: a click on either button, with whatever the dialogs
    return, and the error signal of a worker, leave the four statistics
    and the chart as they are. *)
Theorem statistics_change_only_on_success (s s' : MainWindow) (ev : ui_event) :
  step s ev s' ->
  (forall i d, ev <> WorkerSignal i (finished d)) ->
  total_label s' = total_label s
  /\ flowrate_label s' = flowrate_label s
  /\ pressure_label s' = pressure_label s
  /\ temperature_label s' = temperature_label s
  /\ canvas s' = canvas s.
Proof.
  intros Hstep Hev.
  destruct Hstep as [s dialog chosen Hen | s dialog
    | s i w world sig Hnth Hsig].
  - exact (upload_file_frame dialog chosen s).
  - pose proof (show_auth_dialog_frame dialog s) as Hframe.
    cbv zeta in Hframe. tauto.
  - destruct sig as [d|msg]; [now contradiction (Hev i d)|].
    repeat split.
Qed.

(** The name the window shows for the selected file is the name the worker
    it starts gives the file in the request, and the request carries the
    token the window held when the worker was started. *)
Theorem label_shows_name_sent (dialog : dialog_result) (chosen : string)
    (s : MainWindow) :
  truthy (token s) = true -> chosen <> "" ->
  let s' := upload_file dialog chosen s in
  exists wk,
    worker s' = Some wk
    /\ body (upload_request wk)
       = Files "file" (basename chosen) chosen "text/csv"
    /\ file_label_text s' = "Selected: " ++ basename chosen
    /\ headers (upload_request wk)
       = [("Authorization", "Token " ++ str (token s))].
Proof.
  intros Htok Hc. cbv zeta.
  destruct (upload_file_outcome dialog chosen s) as [(_ & _ & ->)|([Hf|Hf] & _)].
  - rewrite Htok. eexists. simpl. repeat split.
  - rewrite Htok in Hf. congruence.
  - contradiction.
Qed.

(** [on_upload_success] up to the call of the renderer, when the three
    averages can be formatted. *)
Lemma on_upload_success_steps (data stats : pydict) (s : MainWindow)
    (tf tp tt' : string) :
  dict_get data "summary_statistics" (PDict []) = PDict stats ->
  format_2f (dict_get stats "avg_flowrate" (PInt 0)) = Ok tf ->
  format_2f (dict_get stats "avg_pressure" (PInt 0)) = Ok tp ->
  format_2f (dict_get stats "avg_temperature" (PInt 0)) = Ok tt' ->
  on_upload_success data s
  = let total := str (dict_get stats "total_count" (PInt 0)) in
    let s1 :=
      set_temperature_label (tt' ++ " °C")
        (set_pressure_label (tp ++ " bar")
           (set_flowrate_label (tf ++ " m³/h")
              (set_total_label total
                 (set_upload_btn_text IDLE_TEXT
                    (set_upload_btn_enabled true s))))) in
    let rendered :=
      Canvas.plot_type_distribution
        (canvas s) (dict_get stats "type_distribution" (PList [])) in
    match snd rendered with
    | Ok _ =>
        (set_file_label_style "color: #68d391; font-size: 11px;"
           (set_status_message
              ("✅ Success! Loaded " ++ total
               ++ " equipment records. " ++ "File ID: "
               ++ str (dict_get data "file_id" (PStr "N/A")))
              (set_canvas (fst rendered) s1)), Ok tt)
    | Raise e => (set_canvas (fst rendered) s1, Raise e)
    end.
Proof.
  intros Hstats Ff Fp Ft.
  unfold on_upload_success, gbind, modify, glift, plot.
  rewrite Hstats. cbn [get]. rewrite Ff, Fp, Ft.
  cbn [canvas set_temperature_label set_pressure_label
       set_flowrate_label set_total_label set_upload_btn_text
       set_upload_btn_enabled].
  destruct (Canvas.plot_type_distribution _ _) as [c [[]|e]]; reflexivity.
Qed.

(** A response with good statistics and a distribution that is no list of
    [{type, count}] objects is shown in part: the four statistics are
    updated and the button is enabled, then the renderer raises, and the
    handler with it. The chart is left blank, and the status bar and the
    file label keep what they had, so the window goes on saying that the
    upload is under way. *)
Theorem malformed_distribution_updates_in_part
    (data stats : pydict) (s : MainWindow)
    (flowrate pressure temperature : pyfloat) :
  dict_get data "summary_statistics" (PDict []) = PDict stats ->
  finite_number (dict_get stats "avg_flowrate" (PInt 0)) = Some flowrate ->
  finite_number (dict_get stats "avg_pressure" (PInt 0)) = Some pressure ->
  finite_number (dict_get stats "avg_temperature" (PInt 0)) = Some temperature ->
  truthy (dict_get stats "type_distribution" (PList [])) = true ->
  Canvas.well_formed (dict_get stats "type_distribution" (PList [])) = false ->
  let s' := fst (on_upload_success data s) in
  (exists e, snd (on_upload_success data s) = Raise e)
  /\ total_label s' = str (dict_get stats "total_count" (PInt 0))
  /\ flowrate_label s' = format_2f_float flowrate ++ " m³/h"
  /\ pressure_label s' = format_2f_float pressure ++ " bar"
  /\ temperature_label s' = format_2f_float temperature ++ " °C"
  /\ upload_btn_enabled s' = true
  /\ canvas s' = []
  /\ status_message s' = status_message s
  /\ file_label_style s' = file_label_style s.
Proof.
  intros Hstats Hf Hp Ht Htrue Hwf.
  destruct (finite_number_two_decimals _ _ Hf) as [Ff _].
  destruct (finite_number_two_decimals _ _ Hp) as [Fp _].
  destruct (finite_number_two_decimals _ _ Ht) as [Ft _].
  cbv zeta. rewrite (on_upload_success_steps _ _ _ _ _ _ Hstats Ff Fp Ft).
  cbv zeta.
  destruct (plot_not_well_formed (canvas s) _ Htrue Hwf) as [e ->].
  simpl. repeat split. eauto.
Qed.

(** A whole upload. From a state of the window with the button enabled and
    a token, a click that selects a file starts a worker; when the file
    opens and the server answers 201 with a JSON object, the worker's
    signal is [finished] with that object, and its delivery runs
    [on_upload_success] on it and leaves the window idle again, with no
    worker running and the button enabled. *)
Theorem successful_upload_cycle
    (s : MainWindow) (dialog : dialog_result) (chosen : string)
    (w : world) (r : response) (data : pydict) :
  reachable s ->
  upload_btn_enabled s = true ->
  truthy (token s) = true ->
  chosen <> "" ->
  fs_open w chosen = Ok tt ->
  http_post w (upload_request (mk_worker chosen (token s))) = Ok r ->
  status_code r = 201 ->
  json r = inr (PDict data) ->
  let s1 := upload_file dialog chosen s in
  let s2 := fst (on_upload_success data (set_running [] s1)) in
  step s (ClickUpload dialog chosen) s1
  /\ running s1 = [mk_worker chosen (token s)]
  /\ step s1 (WorkerSignal 0 (finished data)) s2
  /\ reachable s2
  /\ running s2 = []
  /\ upload_btn_enabled s2 = true.
Proof.
  intros Hreach Hen Htok Hc Hopen Hpost H201 Hjson. cbv zeta.
  assert (Hidle : running s = []).
  { destruct (reachable_idle_or_uploading s Hreach)
      as [(Hr & _)|(wk & _ & _ & Hdis & _)]; [exact Hr | congruence]. }
  assert (Hs1 : running (upload_file dialog chosen s)
                = [mk_worker chosen (token s)]).
  { destruct (upload_file_outcome dialog chosen s)
      as [(_ & _ & ->)|([Hf|Hf] & _)].
    - rewrite Htok. simpl. now rewrite Hidle.
    - rewrite Htok in Hf. congruence.
    - contradiction. }
  assert (Hsig : emitted (trace (run w (mk_worker chosen (token s))))
                 = [finished data]).
  { rewrite (run_post_returns w (mk_worker chosen (token s)) r Hopen Hpost).
    unfold on_response, response_json, finished_emit, emit_event, lift, bind,
      try_except.
    rewrite H201, Hjson. reflexivity. }
  assert (Hclick : step s (ClickUpload dialog chosen)
                        (upload_file dialog chosen s))
    by (apply step_upload; exact Hen).
  assert (Hdone : step (upload_file dialog chosen s)
                       (WorkerSignal 0 (finished data))
                       (fst (on_upload_success data
                               (set_running [] (upload_file dialog chosen s))))).
  { pose proof (step_signal (upload_file dialog chosen s) 0%nat
                  (mk_worker chosen (token s)) w (finished data)) as Hstep.
    rewrite Hs1 in Hstep. simpl in Hstep. apply Hstep; auto. }
  split; [exact Hclick|]. split; [exact Hs1|]. split; [exact Hdone|].
  split.
  { exact (reach_step _ _ _ (reach_step _ _ _ Hreach Hclick) Hdone). }
  pose proof (slot_keeps_running (finished data)
                (set_running [] (upload_file dialog chosen s))) as Hrun.
  destruct (slot_enables_button (finished data)
              (set_running [] (upload_file dialog chosen s))) as [Hb _].
  simpl in Hrun, Hb. auto.
Qed.

End MainWindowProperties.

(* ================================================================= *)
(** * Properties of the format [.2f] *)

Section FormatProperties.
Import Py Effects.

Lemma round_half_even_nearest (num den : Z) :
  0 < den ->
  let n := round_half_even num den in
  2 * Z.abs (num - n * den) <= den
  /\ (2 * Z.abs (num - n * den) = den -> Z.even n = true).
Proof.
  intros Hden. cbv zeta. unfold round_half_even.
  pose proof (Z.div_mod num den ltac:(lia)) as Hdm.
  pose proof (Z.mod_pos_bound num den Hden) as Hr.
  set (q := num / den) in *. set (r := num mod den) in *.
  clearbody q r.
  destruct (den <? 2 * r) eqn:Hlt.
  - apply Z.ltb_lt in Hlt. cbn [orb].
    replace (num - (q + 1) * den) with (r - den) by lia.
    split; [lia|]. intros Heq. lia.
  - apply Z.ltb_ge in Hlt. cbn [orb].
    destruct (2 * r =? den) eqn:Htie.
    + apply Z.eqb_eq in Htie. cbn [andb].
      destruct (Z.odd q) eqn:Hodd.
      * replace (num - (q + 1) * den) with (r - den) by lia.
        split; [lia|]. intros _.
        rewrite Z.even_add, <- Z.negb_odd, Hodd. reflexivity.
      * replace (num - q * den) with r by lia.
        split; [lia|]. intros _. now rewrite <- Z.negb_odd, Hodd.
    + apply Z.eqb_neq in Htie. cbn [andb].
      replace (num - q * den) with r by lia.
      split; [lia|]. intros Heq. lia.
Qed.

(** The two decimals shown are the nearest ones. For a float
    [m * 2^e], the number of hundredths displayed is exact when [e >= 0],
    and otherwise differs from [100 * m * 2^e] by at most one half; when it
    differs by exactly one half, the even neighbour is shown. *)
Theorem hundredths_is_nearest (m : N) (e : Z) :
  (0 <= e -> hundredths m e = Z.of_N m * 2 ^ e * 100)
  /\ (e < 0 ->
      2 * Z.abs (Z.of_N m * 100 - hundredths m e * 2 ^ (- e)) <= 2 ^ (- e)
      /\ (2 * Z.abs (Z.of_N m * 100 - hundredths m e * 2 ^ (- e)) = 2 ^ (- e)
          -> Z.even (hundredths m e) = true)).
Proof.
  unfold hundredths. split; intros He.
  - apply Z.leb_le in He. now rewrite He.
  - assert (Hneg : (0 <=? e) = false) by (apply Z.leb_gt; lia).
    rewrite Hneg.
    apply (round_half_even_nearest (Z.of_N m * 100) (2 ^ (- e))).
    apply Z.pow_pos_nonneg; lia.
Qed.

(** A value of magnitude at most 0.005 is shown as zero, and keeps its
    sign: a small negative average reads [-0.00]. *)
Theorem tiny_values_show_signed_zero (neg : bool) (m : N) (e : Z) :
  e < 0 ->
  200 * Z.of_N m <= 2 ^ (- e) ->
  format_2f_float (FFinite neg m e) = if neg then "-0.00" else "0.00".
Proof.
  intros He Hsmall.
  assert (Hden : 0 < 2 ^ (- e)) by (apply Z.pow_pos_nonneg; lia).
  assert (Hh : hundredths m e = 0).
  { unfold hundredths.
    assert (Hneg : (0 <=? e) = false) by (apply Z.leb_gt; lia).
    rewrite Hneg. unfold round_half_even.
    assert (Hq : Z.of_N m * 100 / 2 ^ (- e) = 0)
      by (apply Z.div_small; lia).
    assert (Hr : (Z.of_N m * 100) mod 2 ^ (- e) = Z.of_N m * 100)
      by (apply Z.mod_small; lia).
    rewrite Hq, Hr.
    assert (Hlt : (2 ^ (- e) <? 2 * (Z.of_N m * 100)) = false)
      by (apply Z.ltb_ge; lia).
    rewrite Hlt. simpl. now rewrite andb_false_r. }
  unfold format_2f_float. rewrite Hh. destruct neg; reflexivity.
Qed.

Lemma str_int_opp (z : Z) : z < 0 -> str_int z = "-" ++ str_int (- z).
Proof. destruct z; try lia. intros _. reflexivity. Qed.

Lemma fixed2_whole (a : Z) : fixed2 (a * 100) = str_int a ++ ".00".
Proof.
  unfold fixed2.
  rewrite Z.div_mul by lia.
  replace (a * 100 / 10) with (a * 10)
    by (apply Z.div_unique_exact; lia).
  rewrite Z.mod_mul by lia.
  replace (a * 100) with (a * 10 * 10) by lia.
  rewrite Z.mod_mul by lia. reflexivity.
Qed.

(** An integer average of magnitude below [2^53] is shown as its own
    digits followed by [.00]. *)
Theorem integer_shown_with_two_zeros (z : Z) :
  Z.abs z < 2 ^ 53 ->
  format_2f (PInt z) = Ok (str_int z ++ ".00").
Proof.
  intros Hz. unfold format_2f, float_of_int.
  assert (Hbits : ((if Z.abs z =? 0 then 0 else Z.log2 (Z.abs z) + 1) <=? 53)
                  = true).
  { apply Z.leb_le. destruct (Z.abs z =? 0) eqn:H0; [lia|].
    apply Z.eqb_neq in H0.
    assert (Z.log2 (Z.abs z) < 53) by (apply Z.log2_lt_pow2; lia). lia. }
  rewrite Hbits. f_equal.
  unfold format_2f_float, hundredths.
  change (0 <=? 0) with true. cbv iota.
  rewrite Z2N.id by lia.
  replace (Z.abs z * 2 ^ 0 * 100) with (Z.abs z * 100) by lia.
  rewrite fixed2_whole.
  destruct (z <? 0) eqn:Hneg.
  - apply Z.ltb_lt in Hneg. rewrite (str_int_opp z Hneg).
    replace (Z.abs z) with (- z) by lia.
    reflexivity.
  - apply Z.ltb_ge in Hneg. now replace (Z.abs z) with z by lia.
Qed.

End FormatProperties.

Section OverflowProperties.
Import Py Effects.

Lemma round_half_even_bounds (num den : Z) :
  0 < den ->
  num / den <= round_half_even num den <= num / den + 1.
Proof.
  intros Hden. unfold round_half_even. destruct (_ || _); lia.
Qed.

(** [float(z)] fails exactly from [2^1024 - 2^970] on: the first integer
    that rounds to [2^1024], one more than the largest double can take. *)
Lemma float_of_int_overflow (z : Z) :
  float_of_int z = None <-> 2 ^ 1024 - 2 ^ 970 <= Z.abs z.
Proof.
  unfold float_of_int. set (a := Z.abs z).
  assert (Ha : 0 <= a) by (unfold a; lia).
  destruct (Z.eq_dec a 0) as [H0|H0].
  { rewrite H0. simpl. split; [discriminate|]. intros Hle. exfalso.
    revert Hle. apply Z.lt_nge. reflexivity. }
  assert (Hne : (a =? 0) = false) by (now apply Z.eqb_neq).
  rewrite Hne.
  pose proof (Z.log2_spec a ltac:(lia)) as [Hlo Hhi].
  pose proof (Z.log2_nonneg a) as HL.
  set (L := Z.log2 a) in *. clearbody L.
  destruct (L + 1 <=? 53) eqn:Hbits.
  - apply Z.leb_le in Hbits. split; [discriminate|]. intros Hle. exfalso.
    assert (2 ^ Z.succ L <= 2 ^ 53) by (apply Z.pow_le_mono_r; lia).
    assert (2 ^ 53 < 2 ^ 1024 - 2 ^ 970) by reflexivity. lia.
  - apply Z.leb_gt in Hbits.
    set (sh := L + 1 - 53).
    assert (Hsh : 0 < sh) by (unfold sh; lia).
    set (P := 2 ^ sh).
    assert (HP : 0 < P) by (apply Z.pow_pos_nonneg; lia).
    assert (HL52 : 2 ^ L = 2 ^ 52 * P).
    { unfold P. rewrite <- Z.pow_add_r by lia. f_equal. unfold sh. lia. }
    assert (HL53 : 2 ^ Z.succ L = 2 ^ 53 * P).
    { unfold P. rewrite <- Z.pow_add_r by lia. f_equal. unfold sh. lia. }
    rewrite HL52 in Hlo. rewrite HL53 in Hhi.
    pose proof (round_half_even_bounds a P HP) as [Hn1 Hn2].
    assert (Hq1 : 2 ^ 52 <= a / P) by (apply Z.div_le_lower_bound; lia).
    assert (Hq2 : a / P < 2 ^ 53) by (apply Z.div_lt_upper_bound; lia).
    set (n := round_half_even a P) in *.
    destruct (Z_lt_le_dec L 1023) as [Hsmall|Hbig].
    + (* the result is below 2^1023 *)
      assert (Hpow : 2 ^ Z.succ L <= 2 ^ 1023)
        by (apply Z.pow_le_mono_r; lia).
      assert (HnP : n * P <= 2 ^ 53 * P) by nia.
      assert (Hlt : (2 ^ 1024 <=? n * P) = false).
      { apply Z.leb_gt. assert (2 ^ 1023 < 2 ^ 1024) by reflexivity. lia. }
      rewrite Hlt. split; [discriminate|]. intros Hle. exfalso.
      assert (2 ^ 1023 < 2 ^ 1024 - 2 ^ 970) by reflexivity. lia.
    + destruct (Z.eq_dec L 1023) as [Heq|Hneq].
      * (* the binade of the largest doubles *)
        assert (HPv : P = 2 ^ 971) by (unfold P, sh; rewrite Heq; reflexivity).
        pose proof (Z.div_mod a P ltac:(lia)) as Hdm.
        pose proof (Z.mod_pos_bound a P HP) as Hr.
        unfold n, round_half_even in *.
        set (q := a / P) in *. set (r := a mod P) in *. clearbody q r.
        assert (H1024 : 2 ^ 1024 = 2 ^ 53 * P) by (rewrite HPv; reflexivity).
        assert (H970 : P = 2 * 2 ^ 970) by (rewrite HPv; reflexivity).
        set (T := 2 ^ 970) in *. set (B := 2 ^ 53) in *.
        assert (HB : B = 9007199254740992) by reflexivity.
        rewrite H1024.
        destruct (Z.eq_dec q (B - 1)) as [Hq|Hq].
        -- assert (Hodd : Z.odd q = true) by (rewrite Hq, HB; reflexivity).
           rewrite Hodd, andb_true_r.
           destruct (P <? 2 * r) eqn:E1; [|destruct (2 * r =? P) eqn:E2];
             cbn [orb].
           ++ apply Z.ltb_lt in E1.
              assert (Ht : (B * P <=? (q + 1) * P) = true)
                by (apply Z.leb_le; nia).
              rewrite Ht. split; [intros _ | reflexivity]. nia.
           ++ apply Z.eqb_eq in E2.
              assert (Ht : (B * P <=? (q + 1) * P) = true)
                by (apply Z.leb_le; nia).
              rewrite Ht. split; [intros _ | reflexivity]. nia.
           ++ apply Z.ltb_ge in E1. apply Z.eqb_neq in E2.
              assert (Ht : (B * P <=? q * P) = false)
                by (apply Z.leb_gt; nia).
              rewrite Ht. split; [discriminate|]. intros Hle. exfalso. nia.
        -- assert (Hqlt : q + 1 < B) by lia.
           assert (Ht : forall m, m <= q + 1 -> (B * P <=? m * P) = false).
           { intros m Hm. apply Z.leb_gt. nia. }
           destruct (_ || _); rewrite Ht by lia;
             (split; [discriminate|]; intros Hle; exfalso; nia).
      * (* at least 2^1024 *)
        assert (Hpow : 2 ^ 1024 <= 2 ^ L) by (apply Z.pow_le_mono_r; lia).
        rewrite HL52 in Hpow.
        assert (Ht : (2 ^ 1024 <=? n * P) = true).
        { apply Z.leb_le. nia. }
        rewrite Ht. split; [intros _ | reflexivity].
        assert (0 < 2 ^ 970) by reflexivity. lia.
Qed.

(** An integer average can be shown as long as it is below
    [2^1024 - 2^970] in magnitude; from there on the format raises
    [OverflowError]. *)
Theorem format_int_overflow_threshold (z : Z) :
  format_2f (PInt z)
  = Raise (mk_exn (OtherException "OverflowError")
             "int too large to convert to float")
  <-> 2 ^ 1024 - 2 ^ 970 <= Z.abs z.
Proof.
  rewrite <- float_of_int_overflow. unfold format_2f.
  destruct (float_of_int z); split; intros Heq;
    try discriminate; reflexivity.
Qed.

End OverflowProperties.

(* ================================================================= *)
(** * The further properties on the sample data *)

Lemma authenticate_token_origin_witness :
  exists r d,
    http_post (answering token_granted) (Auth.login_request "alice" "secret")
    = Ok r
    /\ status_code r = 200
    /\ json r = inr (PDict d)
    /\ lookup "token" d = Some (PStr "abc123").
Proof.
  destruct (authenticate_token_origin (answering token_granted)
              "alice" "secret") as (v & Hv & Horigin).
  assert (Heq : v = PStr "abc123").
  { change (Ok (PStr "abc123") = Ok v) in Hv. congruence. }
  rewrite Heq in Horigin.
  destruct Horigin as (_ & _ & Hr); [discriminate | exact Hr].
Defined.

Lemma authenticate_posts_once_witness :
  filter is_post (trace (Auth.authenticate (answering bad_gateway)
                                           "alice" "secret"))
  = [EvPost (Auth.login_request "alice" "secret")]
  /\ (List.length (filter is_box
                     (trace (Auth.authenticate (answering bad_gateway)
                                               "alice" "secret")))
      <= 1)%nat.
Proof.
  apply (authenticate_posts_once (answering bad_gateway) "alice" "secret");
    discriminate.
Defined.

Lemma authenticate_odd_200_witness :
  Auth.authenticate (answering token_missing) "alice" "secret"
  = ([EvPost (Auth.login_request "alice" "secret")], Ok PNone)
  /\ Auth.authenticate (answering login_page) "alice" "secret"
     = ([EvPost (Auth.login_request "alice" "secret");
         EvMessageBox Critical "Connection Error"
           ("Could not connect to server: "
            ++ "Expecting value: line 1 column 1 (char 0)")],
        Ok PNone).
Proof.
  split.
  - assert (Hu : "alice" <> "") by discriminate.
    assert (Hp : "secret" <> "") by discriminate.
    destruct (authenticate_odd_200 (answering token_missing) "alice" "secret"
                token_missing Hu Hp eq_refl eq_refl) as [Hsilent _].
    exact (Hsilent [("detail", PStr "ok")] eq_refl eq_refl).
  - assert (Hu : "alice" <> "") by discriminate.
    assert (Hp : "secret" <> "") by discriminate.
    destruct (authenticate_odd_200 (answering login_page) "alice" "secret"
                login_page Hu Hp eq_refl eq_refl) as [_ Hpage].
    exact (Hpage "Expecting value: line 1 column 1 (char 0)" eq_refl).
Defined.

Lemma handle_login_accepts_true_token_witness :
  truthy (PStr "abc123") = true
  /\ Window.show_auth_dialog (Window.Accepted (PStr "abc123"))
                             Window.after_setup_ui
     = Gui.set_status_message "Authenticated successfully"
         (Gui.set_token (PStr "abc123") Window.after_setup_ui).
Proof.
  apply (handle_login_accepts_true_token (answering token_granted)
           "alice" "secret" (PStr "abc123") Window.after_setup_ui).
  reflexivity.
Defined.

Lemma run_closes_file_before_signal_witness :
  exists sig,
    trace (@Upload.run opaque_repr (failing (mk_exn ReadTimeout "timed out"))
                       worker_pumps)
    = [EvOpen "/data/pumps.csv" "rb";
       EvPost (@Upload.upload_request opaque_repr worker_pumps);
       EvClose "/data/pumps.csv"; EvEmit sig].
Proof.
  apply (@run_closes_file_before_signal opaque_repr
           (failing (mk_exn ReadTimeout "timed out")) worker_pumps).
  reflexivity.
Defined.

Lemma finished_only_on_201_witness :
  exists r,
    http_post (answering created)
              (@Upload.upload_request opaque_repr worker_pumps) = Ok r
    /\ status_code r = 201
    /\ json r = inr (PDict scenario_b).
Proof.
  apply (@finished_only_on_201 opaque_repr (answering created) worker_pumps
           scenario_b).
  left. reflexivity.
Defined.

Lemma error_body_not_an_object_witness :
  emitted (trace (@Upload.run opaque_repr (answering error_list) worker_pumps))
  = [error "Error: 'list' object has no attribute 'get'"].
Proof.
  apply (@error_body_not_an_object opaque_repr (answering error_list)
           worker_pumps error_list (PList [PStr "This field is required."]));
    [reflexivity | reflexivity | discriminate | discriminate
    | reflexivity | reflexivity].
Defined.

Lemma basename_of_joined_witness :
  basename "C:\Users\ana\pumps.csv" = "pumps.csv"
  /\ basename "/home/ana/pumps.csv" = "pumps.csv".
Proof.
  split.
  - apply (basename_of_joined "C:\Users\ana" "pumps.csv" "\");
      [right; reflexivity | reflexivity | reflexivity].
  - apply (basename_of_joined "/home/ana" "pumps.csv" "/");
      [left; reflexivity | reflexivity | reflexivity].
Defined.


Lemma bar_colors_period_witness :
  ("#68d391" = "#68d391" <-> (1 mod 7 = 8 mod 7)%nat)
  /\ ("#68d391" = "#ed8936" <-> (1 mod 7 = 2 mod 7)%nat).
Proof.
  split.
  - apply (bar_colors_period 9 1 8); reflexivity.
  - apply (bar_colors_period 9 1 2); reflexivity.
Defined.

Lemma button_tracks_upload_witness :
  (Window.uploading uploading_pumps
   <-> Gui.upload_btn_enabled uploading_pumps = false)
  /\ (forall w, In w (Gui.running uploading_pumps) ->
        Gui.worker uploading_pumps = Some w
        /\ truthy (Upload.token w) = true
        /\ Upload.file_path w <> "").
Proof.
  destruct (@button_tracks_upload opaque_repr uploading_pumps
              uploading_pumps_reachable) as (Hbtn & _ & _ & Hworker).
  split; [exact Hbtn | exact Hworker].
Defined.


Lemma statistics_change_only_on_success_witness :
  Gui.total_label uploading_pumps = Gui.total_label logged_in
  /\ Gui.flowrate_label uploading_pumps = Gui.flowrate_label logged_in
  /\ Gui.pressure_label uploading_pumps = Gui.pressure_label logged_in
  /\ Gui.temperature_label uploading_pumps = Gui.temperature_label logged_in
  /\ Gui.canvas uploading_pumps = Gui.canvas logged_in.
Proof.
  apply (@statistics_change_only_on_success opaque_repr logged_in
           uploading_pumps
           (Window.ClickUpload Window.Rejected "/data/pumps.csv")).
  - apply Window.step_upload. reflexivity.
  - intros i d. discriminate.
Defined.

Lemma label_shows_name_sent_witness :
  exists wk,
    Gui.worker uploading_pumps = Some wk
    /\ body (@Upload.upload_request opaque_repr wk)
       = Files "file" (basename "/data/pumps.csv") "/data/pumps.csv" "text/csv"
    /\ Gui.file_label_text uploading_pumps
       = "Selected: " ++ basename "/data/pumps.csv"
    /\ headers (@Upload.upload_request opaque_repr wk)
       = [("Authorization",
           "Token " ++ @str opaque_repr (Gui.token logged_in))].
Proof.
  apply (@label_shows_name_sent opaque_repr Window.Rejected "/data/pumps.csv"
           logged_in); [reflexivity | discriminate].
Defined.

Lemma malformed_distribution_updates_in_part_witness :
  let s' :=
    fst (@Window.on_upload_success opaque_repr body_without_count
           uploading_pumps) in
  (exists e,
     snd (@Window.on_upload_success opaque_repr body_without_count
            uploading_pumps) = Raise e)
  /\ Gui.total_label s' = "3"
  /\ Gui.flowrate_label s' = "12.00 m³/h"
  /\ Gui.canvas s' = []
  /\ Gui.status_message s' = "Uploading file to API...".
Proof.
  destruct (@malformed_distribution_updates_in_part opaque_repr
              body_without_count
              [("total_count", PInt 3); ("avg_flowrate", PInt 12);
               ("type_distribution", PList pump_without_count)]
              uploading_pumps
              (FFinite false 12 0) (FFinite false 0 0) (FFinite false 0 0)
              eq_refl eq_refl eq_refl eq_refl eq_refl eq_refl)
    as (Hraise & Htotal & Hflow & _ & _ & _ & Hcanvas & Hstatus & _).
  cbv zeta. rewrite Htotal, Hflow, Hcanvas, Hstatus.
  split; [exact Hraise|]. repeat split.
Defined.

Lemma successful_upload_cycle_witness :
  let s1 := Window.upload_file Window.Rejected "/data/pumps.csv" logged_in in
  let s2 :=
    fst (@Window.on_upload_success opaque_repr scenario_b
           (Gui.set_running [] s1)) in
  @Window.step opaque_repr s1 (Window.WorkerSignal 0 (finished scenario_b)) s2
  /\ @Window.reachable opaque_repr s2
  /\ Gui.running s2 = []
  /\ Gui.upload_btn_enabled s2 = true.
Proof.
  assert (Hc : "/data/pumps.csv" <> "") by discriminate.
  destruct (@successful_upload_cycle opaque_repr logged_in Window.Rejected
              "/data/pumps.csv" (answering created) created scenario_b
              (@Window.reach_init opaque_repr (Window.Accepted (PStr "abc123")))
              eq_refl eq_refl Hc eq_refl eq_refl eq_refl eq_refl)
    as (_ & _ & Hstep & Hreach & Hrun & Hen).
  cbv zeta. split; [exact Hstep|]. split; [exact Hreach|].
  split; [exact Hrun | exact Hen].
Defined.

Lemma hundredths_is_nearest_witness :
  2 * Z.abs (1 * 100 - hundredths 1 (-3) * 2 ^ 3) <= 2 ^ 3
  /\ Z.even (hundredths 1 (-3)) = true.
Proof.
  assert (He : -3 < 0) by reflexivity.
  destruct (hundredths_is_nearest 1 (-3)) as [_ Hnear].
  destruct (Hnear He) as [Hbound Htie].
  split; [exact Hbound|]. apply Htie. reflexivity.
Defined.

Lemma tiny_values_show_signed_zero_witness :
  format_2f_float (FFinite true 1 (-10)) = "-0.00".
Proof.
  apply (tiny_values_show_signed_zero true 1 (-10)).
  - reflexivity.
  - intros Hgt. discriminate Hgt.
Defined.

Lemma integer_shown_with_two_zeros_witness :
  format_2f (PInt (-12)) = Ok "-12.00".
Proof.
  apply (integer_shown_with_two_zeros (-12)). reflexivity.
Defined.

Lemma format_int_overflow_threshold_witness :
  format_2f (PInt (2 ^ 1024))
  = Raise (mk_exn (OtherException "OverflowError")
             "int too large to convert to float").
Proof.
  apply (proj2 (format_int_overflow_threshold (2 ^ 1024))).
  intros Hgt. vm_compute in Hgt. discriminate Hgt.
Defined.
